(** * TaskList: the in-memory task collection of the kanban board

    A shallow embedding of [src/features/tasks/class/TaskList.ts].

    The class keeps an array of references to task objects.  Its read
    operations build new arrays whose elements are the very same task
    objects, and [updateTaskStatus] assigns to the [status] field of a task
    object in place.  To speak about copies, aliases and in-place mutation
    the embedding keeps an explicit store: task objects, arrays and
    drag-transfer objects live at locations, and every method is a
    computation over that store which either completes with a value or
    raises. *)

From stdpp Require Import gmap strings list fin_maps.

Open Scope string_scope.
Open Scope list_scope.

(** ** Data model *)

(** [TaskStatus] is a union of string literals in the source; at run time a
    status is a string and [===] on statuses is string equality. *)
Definition TaskStatus := string.

(** The column list of the board component,
    [const COLUMN_TITLES: TaskStatus[] = ["To Do", "In Progress", "Done"]]:
    the closed set of statuses. *)
Definition COLUMN_TITLES : list TaskStatus := ["To Do"; "In Progress"; "Done"].

(** A task object: the two fields the class touches, and the rest of the
    record as an uninterpreted payload. *)
Record Task := mkTask {
  id : string;
  status : TaskStatus;
  payload : string
}.

Definition with_status (t : Task) (s : TaskStatus) : Task :=
  {| id := id t; status := s; payload := payload t |}.

(** Object references. *)
Definition loc := nat.

(** A drag-transfer object holds strings keyed by format name. *)
Definition DataTransfer := gmap string string.

(** The store: task objects, arrays of task references, transfer objects. *)
Record Heap := mkHeap {
  taskObjs : gmap loc Task;
  arrays : gmap loc (list loc);
  transfers : gmap loc DataTransfer
}.

(** An instance of the class: its [tasks] field refers to an array.  The
    field is assigned by the constructor only, so an instance is the
    location of its array. *)
Record TaskList := mkTaskList { tasks : loc }.

(** ** Computations over the store

    [None] stands for a raised [TypeError] (a property read through a
    reference that does not denote an object of the expected kind). *)
Definition M (A : Type) : Type := Heap → option (A * Heap).

Definition ret {A} (a : A) : M A := λ h, Some (a, h).

Definition bind {A B} (m : M A) (k : A → M B) : M B :=
  λ h, match m h with
       | Some (a, h') => k a h'
       | None => None
       end.

Notation "x ←' m ; k" := (bind m (λ x, k))
  (at level 20, m at level 100, k at level 200, right associativity,
   format "x  ←'  m ;  '/' k").
Notation "m ;;' k" := (bind m (λ _, k))
  (at level 100, k at level 200, right associativity).

(** *** Store primitives *)

Definition read_array (arr : loc) : M (list loc) :=
  λ h, match arrays h !! arr with
       | Some l => Some (l, h)
       | None => None
       end.

Definition write_array (arr : loc) (l : list loc) : Heap → Heap :=
  λ h, {| taskObjs := taskObjs h;
          arrays := <[arr := l]> (arrays h);
          transfers := transfers h |}.

(** Array literal: a new array object at a location not in use. *)
Definition new_array (l : list loc) : M loc :=
  λ h, let r := fresh (dom (arrays h)) in Some (r, write_array r l h).

Definition deref (task : loc) : M Task :=
  λ h, match taskObjs h !! task with
       | Some t => Some (t, h)
       | None => None
       end.

(** [task.id], [task.status] and [task.status = s]. *)
Definition get_id (task : loc) : M string :=
  t ←' deref task; ret (id t).

Definition get_status (task : loc) : M TaskStatus :=
  t ←' deref task; ret (status t).

Definition write_task (task : loc) (t : Task) : Heap → Heap :=
  λ h, {| taskObjs := <[task := t]> (taskObjs h);
          arrays := arrays h;
          transfers := transfers h |}.

Definition set_status (task : loc) (s : TaskStatus) : M unit :=
  t ←' deref task; λ h, Some (tt, write_task task (with_status t s) h).

Definition write_transfer (r : loc) (d : DataTransfer) : Heap → Heap :=
  λ h, {| taskObjs := taskObjs h;
          arrays := arrays h;
          transfers := <[r := d]> (transfers h) |}.

(** *** Array methods used by the class *)

(** [[...arr]]: a new array with the elements of [arr]. *)
Definition Array_spread (arr : loc) : M loc :=
  l ←' read_array arr; new_array l.

Fixpoint filter_loop (cb : loc → M bool) (l : list loc) : M (list loc) :=
  match l with
  | [] => ret []
  | x :: l' =>
      b ←' cb x;
      rest ←' filter_loop cb l';
      ret (if b : bool then x :: rest else rest)
  end.

(** [arr.filter(cb)]: the callbacks of the class only read, so the elements
    are taken once, before the loop. *)
Definition Array_filter (cb : loc → M bool) (arr : loc) : M loc :=
  l ←' read_array arr;
  kept ←' filter_loop cb l;
  new_array kept.

Fixpoint find_loop (cb : loc → M bool) (l : list loc) : M (option loc) :=
  match l with
  | [] => ret None
  | x :: l' =>
      b ←' cb x;
      if b : bool then ret (Some x) else find_loop cb l'
  end.

(** [arr.find(cb)]: stops at the first element the callback accepts;
    [None] is [undefined]. *)
Definition Array_find (cb : loc → M bool) (arr : loc) : M (option loc) :=
  l ←' read_array arr; find_loop cb l.

(** [arr.push(x)]. *)
Definition Array_push (arr : loc) (x : loc) : M unit :=
  l ←' read_array arr; λ h, Some (tt, write_array arr (l ++ [x]) h).

(** ** The drag-transfer helpers and the class *)

Section TaskListClass.

(** The name under which the dragged task's identifier is stored. *)
Context (DRAG_KEY : string).

(** Modelled from the spec: [setDraggedTaskId] of [../utils], which is not
    among the sources.  [beginDrag] "writes [id] into the ephemeral transfer
    payload, keyed by a fixed, well-known key"; the channel has
    [write(key, value)] semantics.  The parameter has type
    [DataTransfer | null]: on [null] there is nothing to write to. *)
Definition setDraggedTaskId (dataTransfer : option loc) (taskId : string) : M unit :=
  match dataTransfer with
  | None => ret tt
  | Some r =>
      λ h, match transfers h !! r with
           | Some d => Some (tt, write_transfer r (<[DRAG_KEY := taskId]> d) h)
           | None => None
           end
  end.

(** Modelled from the spec: [getDraggedTaskId] of [../utils], which is not
    among the sources.  [completeDrop] "reads the task identifier out of the
    transfer payload", with [read(key) -> optional value] semantics; [None]
    is the absent value, also read from [null]. *)
Definition getDraggedTaskId (dataTransfer : option loc) : M (option string) :=
  match dataTransfer with
  | None => ret None
  | Some r =>
      λ h, match transfers h !! r with
           | Some d => Some (d !! DRAG_KEY, h)
           | None => None
           end
  end.

(** [!taskId] for a value that is a string, [null] or [undefined]: true of
    the absent value and of the empty string. *)
Definition falsy (taskId : option string) : bool :=
  match taskId with
  | None => true
  | Some s => bool_decide (s = EmptyString)
  end.

(** [constructor(initialTasks: Task[] = [])]: [this.tasks = [...initialTasks]];
    [None] is the omitted argument, for which the default [[]] is built. *)
Definition constructor (initialTasks : option loc) : M TaskList :=
  a ←' match initialTasks with
       | Some a => ret a
       | None => new_array []
       end;
  r ←' Array_spread a;
  ret (mkTaskList r).

Definition getAll (this : TaskList) : M loc :=
  Array_spread (tasks this).

Definition getByStatus (this : TaskList) (status0 : TaskStatus) : M loc :=
  Array_filter
    (λ task, s ←' get_status task; ret (bool_decide (s = status0)))
    (tasks this).

Definition add (this : TaskList) (newTask : loc) : M unit :=
  Array_push (tasks this) newTask.

Definition updateTaskStatus (this : TaskList) (taskId : string)
    (targetStatus : TaskStatus) : M bool :=
  found ←' Array_find
             (λ task, i ←' get_id task; ret (bool_decide (i = taskId)))
             (tasks this);
  match found with
  | None => ret false
  | Some targetTask =>
      s ←' get_status targetTask;
      if bool_decide (s = targetStatus) then ret false
      else set_status targetTask targetStatus ;;' ret true
  end.

Definition onDrag (this : TaskList) (taskId : string) (dataTransfer : option loc) : M unit :=
  setDraggedTaskId dataTransfer taskId.

(** Past the guard [if (!taskId) return false], [taskId] is a non-empty
    string. *)
Definition onDrop (this : TaskList) (dataTransfer : option loc)
    (targetStatus : TaskStatus) : M bool :=
  taskId ←' getDraggedTaskId dataTransfer;
  if falsy taskId then ret false
  else match taskId with
       | Some i => updateTaskStatus this i targetStatus
       | None => ret false
       end.

(** ** Vocabulary of the statements *)

(** The collection is well formed in a store when its [tasks] field denotes
    an array all of whose elements denote task objects. *)
Definition wf (this : TaskList) (h : Heap) : Prop :=
  ∃ l, arrays h !! tasks this = Some l ∧
       ∀ x, x ∈ l → is_Some (taskObjs h !! x).

(** The task references held by the collection, in order. *)
Definition contents (this : TaskList) (h : Heap) : list loc :=
  default [] (arrays h !! tasks this).

(** The elements of the array a read operation returned. *)
Definition elems (arr : loc) (h : Heap) : list loc :=
  default [] (arrays h !! arr).

(** The task at [x] has identifier [i]; the task at [x] has status [s]. *)
Definition has_id (h : Heap) (i : string) (x : loc) : Prop :=
  id <$> taskObjs h !! x = Some i.

Definition has_status (h : Heap) (s : TaskStatus) (x : loc) : Prop :=
  status <$> taskObjs h !! x = Some s.

#[local] Instance has_id_dec h i x : Decision (has_id h i x).
Proof. unfold has_id. apply _. Defined.

#[local] Instance has_status_dec h s x : Decision (has_status h s x).
Proof. unfold has_status. apply _. Defined.

(** The arrow functions passed to [filter] by [getByStatus] and to [find]
    by [updateTaskStatus], under a name. *)
Definition status_cb (s : TaskStatus) : loc → M bool :=
  λ task, s' ←' get_status task; ret (bool_decide (s' = s)).

Definition id_cb (i : string) : loc → M bool :=
  λ task, i' ←' get_id task; ret (bool_decide (i' = i)).

(** [x] is the first element of [l] whose task has identifier [i]: the
    elements before it denote tasks with other identifiers.  Nothing is
    asked of the elements after it. *)
Definition first_with_id (h : Heap) (i : string) (l : list loc) (x : loc) : Prop :=
  ∃ pre post, l = pre ++ x :: post ∧
              has_id h i x ∧
              ∀ y, y ∈ pre → ∃ t, taskObjs h !! y = Some t ∧ id t ≠ i.

(** What a caller sees of a read operation run in store [h]: the elements
    of the array it returned. *)
Definition snapshot (m : M loc) (h : Heap) : option (list loc) :=
  match m h with
  | Some (r, h') => Some (elems r h')
  | None => None
  end.

(** A transfer argument is usable when it is [null] or denotes a transfer
    object. *)
Definition transfer_ok (dataTransfer : option loc) (h : Heap) : Prop :=
  match dataTransfer with
  | None => True
  | Some r => is_Some (transfers h !! r)
  end.

(** A call completes normally, in a store satisfying [P]. *)
Definition completes {A} (m : M A) (P : Heap → Prop) (h : Heap) : Prop :=
  ∃ a h', m h = Some (a, h') ∧ P h'.

(** What the methods rely on: a well-formed collection, a usable transfer
    argument, and a task object behind the reference handed to [add]. *)
Definition usable (this : TaskList) (dataTransfer : option loc) (newTask : loc)
    (h : Heap) : Prop :=
  wf this h ∧ transfer_ok dataTransfer h ∧ is_Some (taskObjs h !! newTask).

(** Any mutation of the array a caller holds (push, pop, splice, sort,
    index assignment, ...) replaces its elements by some list. *)
Definition mutate_array (arr : loc) (l : list loc) (h : Heap) : Heap :=
  write_array arr l h.

(** ** The board component

    [KanbanBoard] keeps one [TaskList] and a refresh counter in its state,
    hands [onDrag] and [onDrop] the transfer object of the platform's drag
    events, and renders one column per title of [COLUMN_TITLES]. *)

(** Of a drag event the component uses its transfer object and
    [preventDefault()]. *)
Record DragEvent := mkDragEvent {
  dataTransfer : option loc;
  defaultPrevented : bool
}.

Definition preventDefault (event : DragEvent) : DragEvent :=
  {| dataTransfer := dataTransfer event; defaultPrevented := true |}.

(** The two state cells of the component: [taskList] and the refresh key
    ([useState(0)]). *)
Record Board := mkBoard {
  taskList : TaskList;
  refreshKey : Z
}.

(** [currentValue + 1] on a number that holds an integer between 0 and
    2^53: exact below 2^53, where the sum is rounded back to 2^53. *)
Definition number_succ (currentValue : Z) : Z :=
  if decide (currentValue < 2 ^ 53)%Z then (currentValue + 1)%Z
  else currentValue.

Definition refreshBoard (b : Board) : Board :=
  {| taskList := taskList b; refreshKey := number_succ (refreshKey b) |}.

Definition handleTaskDragStart (b : Board) (taskId : string) (event : DragEvent) : M unit :=
  onDrag (taskList b) taskId (dataTransfer event).

Definition handleColumnDragOver (event : DragEvent) : DragEvent :=
  preventDefault event.

Definition handleColumnDrop (b : Board) (event : DragEvent) (status0 : TaskStatus)
    : M (Board * DragEvent) :=
  let event' := preventDefault event in
  isMoved ←' onDrop (taskList b) (dataTransfer event') status0;
  ret (if isMoved : bool then refreshBoard b else b, event').

Fixpoint map_loop {A B} (cb : A → M B) (l : list A) : M (list B) :=
  match l with
  | [] => ret []
  | a :: l' => b ←' cb a; rest ←' map_loop cb l'; ret (b :: rest)
  end.

(** [COLUMN_TITLES.map((title) => <KanbanColumn title={title}
    tasks={taskList.getByStatus(title)} ... />)]: the title and the task
    array each column is given. *)
Definition renderColumns (b : Board) : M (list (TaskStatus * loc)) :=
  map_loop (λ title, column ←' getByStatus (taskList b) title; ret (title, column))
           COLUMN_TITLES.


(** The task at [x] carries one of the statuses of [COLUMN_TITLES]. *)
Definition on_board (h : Heap) (x : loc) : Prop :=
  Exists (λ s, has_status h s x) COLUMN_TITLES.

#[local] Instance on_board_dec h x : Decision (on_board h x).
Proof. unfold on_board. apply _. Defined.

(** ** Concrete stores used to exercise the statements *)

Definition task1 : Task := mkTask "t1" "To Do" "Write the report".
Definition task2 : Task := mkTask "t2" "To Do" "Review the design".
Definition task3 : Task := mkTask "t3" "Done" "Set up the emulator".

(** Three tasks at locations 1, 2, 3; the collection's array at location 0
    and an empty transfer object at location 0. *)
Definition heap0 : Heap :=
  {| taskObjs := <[1 := task1]> (<[2 := task2]> (<[3 := task3]> ∅));
     arrays := <[0 := [1; 2; 3]]> ∅;
     transfers := <[0 := ∅]> ∅ |}.

Definition list0 : TaskList := mkTaskList 0.

(** Two tasks share the identifier "dup"; the first is already done. *)
Definition heap_dup : Heap :=
  {| taskObjs := <[1 := mkTask "dup" "Done" "first"]>
                   (<[2 := mkTask "dup" "To Do" "second"]> ∅);
     arrays := <[0 := [1; 2]]> ∅;
     transfers := <[0 := ∅]> ∅ |}.

(** A task whose identifier is the empty string. *)
Definition heap_empty_id : Heap :=
  {| taskObjs := <[1 := mkTask EmptyString "To Do" "untitled"]> ∅;
     arrays := <[0 := [1]]> ∅;
     transfers := <[0 := ∅]> ∅ |}.

(** A collection with no task, and three task objects not yet added. *)
Definition heap_fresh : Heap :=
  {| taskObjs := <[1 := task1]> (<[2 := task2]> (<[3 := mkTask "t3" "To Do" "c"]> ∅));
     arrays := <[0 := []]> ∅;
     transfers := ∅ |}.

(** A board over the collection of [heap0], and a drag event carrying the
    transfer object at location 0. *)
Definition board0 : Board := mkBoard list0 0.

Definition event0 : DragEvent := mkDragEvent (Some 0) false.

(** ** Reasoning about computations *)

Lemma bind_Some {A B} (m : M A) (k : A → M B) h a h' :
  m h = Some (a, h') → bind m k h = k a h'.
Proof. intros E. unfold bind. by rewrite E. Qed.

Lemma read_array_Some arr l h :
  arrays h !! arr = Some l → read_array arr h = Some (l, h).
Proof. intros E. unfold read_array. by rewrite E. Qed.

Lemma deref_Some x t h :
  taskObjs h !! x = Some t → deref x h = Some (t, h).
Proof. intros E. unfold deref. by rewrite E. Qed.

Lemma get_id_Some x t h :
  taskObjs h !! x = Some t → get_id x h = Some (id t, h).
Proof. intros E. unfold get_id. by rewrite (bind_Some _ _ _ _ _ (deref_Some _ _ _ E)). Qed.

Lemma get_status_Some x t h :
  taskObjs h !! x = Some t → get_status x h = Some (status t, h).
Proof. intros E. unfold get_status. by rewrite (bind_Some _ _ _ _ _ (deref_Some _ _ _ E)). Qed.

Lemma set_status_Some x t s h :
  taskObjs h !! x = Some t →
  set_status x s h = Some (tt, write_task x (with_status t s) h).
Proof. intros E. unfold set_status. by rewrite (bind_Some _ _ _ _ _ (deref_Some _ _ _ E)). Qed.

Lemma elems_write_array r l h : elems r (write_array r l h) = l.
Proof. unfold elems, write_array. simpl. by rewrite lookup_insert_eq. Qed.

Lemma contents_Some this h l :
  arrays h !! tasks this = Some l → contents this h = l.
Proof. intros E. unfold contents. by rewrite E. Qed.

Lemma wf_contents this h :
  wf this h →
  arrays h !! tasks this = Some (contents this h) ∧
  ∀ x, x ∈ contents this h → is_Some (taskObjs h !! x).
Proof.
  intros (l & E & Hl). by rewrite (contents_Some _ _ _ E).
Qed.

(** *** The two loops *)

Lemma filter_loop_status s l h :
  (∀ x, x ∈ l → is_Some (taskObjs h !! x)) →
  filter_loop (status_cb s) l h = Some (filter (has_status h s) l, h).
Proof.
  induction l as [|x l IH]; intros Hl; [done|].
  destruct (Hl x) as [t Ht]; [left|].
  cbn [filter_loop]. unfold status_cb at 1.
  rewrite (bind_Some _ _ _ _ _ (bind_Some _ _ _ _ _ (get_status_Some _ _ _ Ht))).
  rewrite (bind_Some _ _ _ _ _ (IH (λ y Hy, Hl y (list_elem_of_further _ _ _ Hy)))).
  unfold ret. do 2 f_equal.
  rewrite filter_cons.
  destruct (decide (has_status h s x)) as [Hs|Hs];
    unfold has_status in Hs; rewrite Ht in Hs; simpl in Hs;
    case_bool_decide; congruence.
Qed.

Lemma find_loop_none i l h :
  (∀ y, y ∈ l → ∃ t, taskObjs h !! y = Some t ∧ id t ≠ i) →
  find_loop (id_cb i) l h = Some (None, h).
Proof.
  induction l as [|x l IH]; intros Hl; [done|].
  destruct (Hl x) as (t & Ht & Hne); [left|].
  cbn [find_loop]. unfold id_cb at 1.
  rewrite (bind_Some _ _ _ _ _ (bind_Some _ _ _ _ _ (get_id_Some _ _ _ Ht))).
  rewrite bool_decide_eq_false_2 by done.
  apply IH. intros y Hy. apply Hl. by right.
Qed.

(** The loop stops at the first accepted element: the elements after it
    play no part. *)
Lemma find_loop_first i pre x post t h :
  (∀ y, y ∈ pre → ∃ t', taskObjs h !! y = Some t' ∧ id t' ≠ i) →
  taskObjs h !! x = Some t → id t = i →
  find_loop (id_cb i) (pre ++ x :: post) h = Some (Some x, h).
Proof.
  intros Hpre Ht Hi.
  induction pre as [|y pre IH]; cbn [app find_loop]; unfold id_cb at 1.
  - rewrite (bind_Some _ _ _ _ _ (bind_Some _ _ _ _ _ (get_id_Some _ _ _ Ht))).
    by rewrite bool_decide_eq_true_2.
  - destruct (Hpre y) as (t' & Ht' & Hne); [left|].
    rewrite (bind_Some _ _ _ _ _ (bind_Some _ _ _ _ _ (get_id_Some _ _ _ Ht'))).
    rewrite bool_decide_eq_false_2 by done.
    apply IH. intros z Hz. apply Hpre. by right.
Qed.

(** *** What each method computes *)

Lemma getAll_spec this h l :
  arrays h !! tasks this = Some l →
  ∃ r, arrays h !! r = None ∧ getAll this h = Some (r, write_array r l h).
Proof.
  intros E. exists (fresh (dom (arrays h))). split.
  - apply not_elem_of_dom, is_fresh.
  - unfold getAll, Array_spread.
    by rewrite (bind_Some _ _ _ _ _ (read_array_Some _ _ _ E)).
Qed.

Lemma getByStatus_spec this s h :
  wf this h →
  ∃ r, arrays h !! r = None ∧
       getByStatus this s h =
         Some (r, write_array r (filter (has_status h s) (contents this h)) h).
Proof.
  intros [E Hl]%wf_contents. exists (fresh (dom (arrays h))). split.
  - apply not_elem_of_dom, is_fresh.
  - unfold getByStatus, Array_filter.
    rewrite (bind_Some _ _ _ _ _ (read_array_Some _ _ _ E)).
    by rewrite (bind_Some _ _ _ _ _ (filter_loop_status s _ _ Hl)).
Qed.

Lemma add_spec this x h l :
  arrays h !! tasks this = Some l →
  add this x h = Some (tt, write_array (tasks this) (l ++ [x]) h).
Proof.
  intros E. unfold add, Array_push.
  by rewrite (bind_Some _ _ _ _ _ (read_array_Some _ _ _ E)).
Qed.

Lemma updateTaskStatus_absent this h l i s :
  arrays h !! tasks this = Some l →
  (∀ y, y ∈ l → ∃ t, taskObjs h !! y = Some t ∧ id t ≠ i) →
  updateTaskStatus this i s h = Some (false, h).
Proof.
  intros E Hl. unfold updateTaskStatus, Array_find.
  rewrite (bind_Some _ _ _ _ _
             (eq_trans (bind_Some _ _ _ _ _ (read_array_Some _ _ _ E))
                       (find_loop_none i l h Hl))).
  done.
Qed.

Lemma updateTaskStatus_first this h pre x post t i s :
  arrays h !! tasks this = Some (pre ++ x :: post) →
  (∀ y, y ∈ pre → ∃ t', taskObjs h !! y = Some t' ∧ id t' ≠ i) →
  taskObjs h !! x = Some t → id t = i →
  updateTaskStatus this i s h =
    Some (if decide (status t = s) then (false, h)
          else (true, write_task x (with_status t s) h)).
Proof.
  intros E Hpre Ht Hi. unfold updateTaskStatus, Array_find.
  rewrite (bind_Some _ _ _ _ _
             (eq_trans (bind_Some _ _ _ _ _ (read_array_Some _ _ _ E))
                       (find_loop_first i pre x post t h Hpre Ht Hi))).
  rewrite (bind_Some _ _ _ _ _ (get_status_Some _ _ _ Ht)).
  case_bool_decide; case_decide; try congruence; [done|].
  by rewrite (bind_Some _ _ _ _ _ (set_status_Some _ _ s _ Ht)).
Qed.

(** The outcome once the first task with the identifier is known. *)
Lemma updateTaskStatus_found this h i s x :
  arrays h !! tasks this = Some (contents this h) →
  first_with_id h i (contents this h) x →
  ∃ t, taskObjs h !! x = Some t ∧ id t = i ∧
       updateTaskStatus this i s h =
         Some (if decide (status t = s) then (false, h)
               else (true, write_task x (with_status t s) h)).
Proof.
  intros E (pre & post & Epp & Hx & Hpre).
  rewrite Epp in E. unfold has_id in Hx.
  destruct (taskObjs h !! x) as [t|] eqn:Ht; [|done].
  injection Hx as Hi. exists t. split; [done|]. split; [done|].
  by apply (updateTaskStatus_first _ _ pre x post).
Qed.

(** In a well-formed collection either no element carries the identifier or
    there is a first one that does. *)
Lemma first_with_id_or_absent h i l :
  (∀ x, x ∈ l → is_Some (taskObjs h !! x)) →
  (∀ y, y ∈ l → ∃ t, taskObjs h !! y = Some t ∧ id t ≠ i) ∨
  (∃ x, first_with_id h i l x).
Proof.
  induction l as [|x l IH]; intros Hl.
  - left. intros y Hy. by apply elem_of_nil in Hy.
  - destruct (Hl x) as [t Ht]; [left|].
    destruct (decide (id t = i)) as [Hi|Hi].
    + right. exists x, [], l. split; [done|]. split.
      * unfold has_id. by rewrite Ht, <- Hi.
      * intros y Hy. by apply elem_of_nil in Hy.
    + destruct IH as [Hno|(x' & pre & post & -> & Hx' & Hpre)].
      * intros y Hy. apply Hl. by right.
      * left. intros y [->|Hy]%elem_of_cons; [eauto|by apply Hno].
      * right. exists x', (x :: pre), post. split; [done|]. split; [done|].
        intros y [->|Hy]%elem_of_cons; [eauto|by apply Hpre].
Qed.

(** *** Well-formedness is kept *)

Lemma wf_write_array this r l h :
  r ≠ tasks this → wf this h → wf this (write_array r l h).
Proof.
  intros Hne (l0 & E & Hl). exists l0. split; [|done].
  unfold write_array. simpl. by rewrite lookup_insert_ne.
Qed.

Lemma wf_push this x h :
  is_Some (taskObjs h !! x) → wf this h →
  wf this (write_array (tasks this) (contents this h ++ [x]) h).
Proof.
  intros Hx [E Hl]%wf_contents. exists (contents this h ++ [x]). split.
  - unfold write_array. simpl. by rewrite lookup_insert_eq.
  - intros y [Hy| ->%list_elem_of_singleton]%elem_of_app; [by apply Hl|done].
Qed.

Lemma wf_write_task this x t h :
  wf this h → wf this (write_task x t h).
Proof.
  intros (l & E & Hl). exists l. split; [done|].
  intros y Hy. unfold write_task. simpl.
  destruct (decide (x = y)) as [->|Hne].
  - rewrite lookup_insert_eq. eauto.
  - rewrite lookup_insert_ne by done. by apply Hl.
Qed.

(** ** The claims *)

(** C1: [updateTaskStatus(taskId, targetStatus)] returns [false] and leaves
    the whole store as it was when no task of the collection has that
    identifier; it returns [false] and leaves the store as it was when the
    first task with that identifier already has the target status; and
    otherwise it returns [true] and has assigned in place: the task object
    found, read at its own location in the new store, carries the target
    status with its identifier and payload as before, every other task
    object, the arrays and the transfer objects are as they were. *)
Theorem updateTaskStatus_outcomes this h i s :
  wf this h →
  ((∀ x, x ∈ contents this h → ¬ has_id h i x) →
     updateTaskStatus this i s h = Some (false, h)) ∧
  (∀ x, first_with_id h i (contents this h) x →
     (has_status h s x →
        updateTaskStatus this i s h = Some (false, h)) ∧
     (¬ has_status h s x →
        ∃ t h',
          taskObjs h !! x = Some t ∧
          updateTaskStatus this i s h = Some (true, h') ∧
          h' = write_task x (with_status t s) h ∧
          taskObjs h' !! x = Some (mkTask (id t) s (payload t)) ∧
          has_status h' s x ∧
          (∀ y, y ≠ x → taskObjs h' !! y = taskObjs h !! y) ∧
          arrays h' = arrays h ∧ transfers h' = transfers h)).
Proof.
  intros [E Hl]%wf_contents. split.
  - intros Hno. apply (updateTaskStatus_absent _ _ _ _ _ E).
    intros y Hy. destruct (Hl y Hy) as [t Ht]. exists t. split; [done|].
    intros Hi. apply (Hno y Hy). unfold has_id. by rewrite Ht, <- Hi.
  - intros x Hfirst.
    destruct (updateTaskStatus_found _ _ _ s _ E Hfirst) as (t & Ht & _ & Hu).
    unfold has_status. rewrite Ht. simpl. split.
    + intros [= Hs]. by rewrite Hu, decide_True.
    + intros Hs. exists t, (write_task x (with_status t s) h).
      split; [done|].
      split; [rewrite Hu, decide_False; [done|congruence]|].
      split; [done|].
      unfold has_status, write_task. simpl. rewrite lookup_insert_eq.
      split; [done|]. split; [done|].
      split; [intros y Hne; by rewrite lookup_insert_ne|done].
Qed.

(** *** What a caller sees of the read operations *)

Lemma snapshot_getAll this h :
  wf this h → snapshot (getAll this) h = Some (contents this h).
Proof.
  intros [E _]%wf_contents.
  destruct (getAll_spec _ _ _ E) as (r & _ & Hr).
  unfold snapshot. rewrite Hr. by rewrite elems_write_array.
Qed.

Lemma snapshot_getByStatus this s h :
  wf this h →
  snapshot (getByStatus this s) h =
    Some (filter (has_status h s) (contents this h)).
Proof.
  intros Hwf.
  destruct (getByStatus_spec _ s _ Hwf) as (r & _ & Hr).
  unfold snapshot. rewrite Hr. by rewrite elems_write_array.
Qed.

(** The array a read operation returns is a new one: it is not the array
    the collection holds, and the store is otherwise as before. *)
Lemma read_returns_new_array this s0 h r h1 :
  wf this h →
  getAll this h = Some (r, h1) ∨ getByStatus this s0 h = Some (r, h1) →
  r ≠ tasks this ∧ ∃ l, h1 = write_array r l h.
Proof.
  intros Hwf Hcall. pose proof Hwf as [E _]%wf_contents.
  assert (arrays h !! r = None ∧ ∃ l, h1 = write_array r l h) as [Hr Hh1].
  { destruct Hcall as [Hcall|Hcall].
    - destruct (getAll_spec _ _ _ E) as (r' & Hr' & Hg).
      rewrite Hg in Hcall. injection Hcall as <- <-. eauto.
    - destruct (getByStatus_spec _ s0 _ Hwf) as (r' & Hr' & Hg).
      rewrite Hg in Hcall. injection Hcall as <- <-. eauto. }
  split; [|done]. intros ->. congruence.
Qed.

(** C2: mutating the array returned by [getAll()] or [getByStatus()] in any
    way leaves the collection as it was: it stays well formed, it holds the
    same task references in the same order, the task objects are the same,
    and [getAll()] and every [getByStatus()] called afterwards return what
    they would have returned had the array not been touched. *)
Theorem snapshot_isolation this h s0 r h1 l' :
  wf this h →
  getAll this h = Some (r, h1) ∨ getByStatus this s0 h = Some (r, h1) →
  wf this (mutate_array r l' h1) ∧
  contents this (mutate_array r l' h1) = contents this h1 ∧
  taskObjs (mutate_array r l' h1) = taskObjs h1 ∧
  is_Some (snapshot (getAll this) h1) ∧
  snapshot (getAll this) (mutate_array r l' h1) = snapshot (getAll this) h1 ∧
  ∀ s, is_Some (snapshot (getByStatus this s) h1) ∧
       snapshot (getByStatus this s) (mutate_array r l' h1) =
         snapshot (getByStatus this s) h1.
Proof.
  intros Hwf Hcall.
  destruct (read_returns_new_array _ _ _ _ _ Hwf Hcall) as (Hne & l & ->).
  assert (Hwf1 : wf this (write_array r l h)) by by apply wf_write_array.
  assert (Hwf2 : wf this (mutate_array r l' (write_array r l h)))
    by by apply wf_write_array.
  assert (Hc : contents this (mutate_array r l' (write_array r l h)) =
               contents this (write_array r l h))
    by (unfold contents, mutate_array, write_array; simpl;
        by rewrite !lookup_insert_ne).
  split; [done|]. split; [done|]. split; [done|].
  rewrite !snapshot_getAll by done. split; [by eexists|].
  split; [by rewrite Hc|].
  intros s. rewrite !snapshot_getByStatus by done.
  split; [by eexists|]. by rewrite Hc.
Qed.

(** *** The transfer object *)

Lemma onDrag_spec this i r d h :
  transfers h !! r = Some d →
  onDrag this i (Some r) h =
    Some (tt, write_transfer r (<[DRAG_KEY := i]> d) h).
Proof. intros E. unfold onDrag, setDraggedTaskId. by rewrite E. Qed.

Lemma getDraggedTaskId_spec r d h :
  transfers h !! r = Some d →
  getDraggedTaskId (Some r) h = Some (d !! DRAG_KEY, h).
Proof. intros E. unfold getDraggedTaskId. by rewrite E. Qed.

(** Reading back what [onDrag] wrote. *)
Lemma getDraggedTaskId_after_write i r d h :
  getDraggedTaskId (Some r) (write_transfer r (<[DRAG_KEY := i]> d) h) =
    Some (Some i, write_transfer r (<[DRAG_KEY := i]> d) h).
Proof.
  rewrite (getDraggedTaskId_spec r (<[DRAG_KEY := i]> d)).
  - unfold DataTransfer. by rewrite lookup_insert_eq.
  - unfold write_transfer. simpl. by rewrite lookup_insert_eq.
Qed.

Lemma onDrop_absent this dataTransfer s h :
  getDraggedTaskId dataTransfer h = Some (None, h) →
  onDrop this dataTransfer s h = Some (false, h).
Proof. intros E. unfold onDrop. by rewrite (bind_Some _ _ _ _ _ E). Qed.

Lemma onDrop_empty this dataTransfer s h :
  getDraggedTaskId dataTransfer h = Some (Some EmptyString, h) →
  onDrop this dataTransfer s h = Some (false, h).
Proof. intros E. unfold onDrop. by rewrite (bind_Some _ _ _ _ _ E). Qed.

Lemma onDrop_delegates this dataTransfer i s h :
  getDraggedTaskId dataTransfer h = Some (Some i, h) → i ≠ EmptyString →
  onDrop this dataTransfer s h = updateTaskStatus this i s h.
Proof.
  intros E Hi. unfold onDrop. rewrite (bind_Some _ _ _ _ _ E).
  unfold falsy. by rewrite bool_decide_eq_false_2.
Qed.

(** C4: [onDrop] on a transfer argument from which no identifier is read
    ([null], or a transfer object holding nothing under the key, such as one
    into which no [onDrag] wrote) returns [false] and leaves the whole store
    as it was. *)
Theorem onDrop_without_drag this dataTransfer s h :
  dataTransfer = None ∨
  (∃ r d, dataTransfer = Some r ∧ transfers h !! r = Some d ∧
          d !! DRAG_KEY = None) →
  onDrop this dataTransfer s h = Some (false, h).
Proof.
  intros [->|(r & d & -> & E & Hd)]; apply onDrop_absent; [done|].
  by rewrite (getDraggedTaskId_spec _ _ _ E), Hd.
Qed.

(** C10: [onDrop] treats the empty string as no identifier.  When the
    transfer object holds the empty string under the key, and in particular
    right after [onDrag] wrote the empty string into it, [onDrop] returns
    [false] and leaves the store as it was, whatever tasks the collection
    holds. *)
Theorem onDrop_empty_identifier this r d s h :
  transfers h !! r = Some d →
  (d !! DRAG_KEY = Some EmptyString → onDrop this (Some r) s h = Some (false, h)) ∧
  (∃ h1, onDrag this EmptyString (Some r) h = Some (tt, h1) ∧
         onDrop this (Some r) s h1 = Some (false, h1)).
Proof.
  intros E. split.
  - intros Hd. apply onDrop_empty.
    by rewrite (getDraggedTaskId_spec _ _ _ E), Hd.
  - eexists. split; [by apply onDrag_spec|].
    apply onDrop_empty, getDraggedTaskId_after_write.
Qed.

(** *** After a successful move *)

Lemma has_status_write_task x t s h :
  has_status (write_task x (with_status t s) h) s x.
Proof. unfold has_status, write_task. simpl. by rewrite lookup_insert_eq. Qed.

Lemma has_id_write_task x t s h :
  has_id (write_task x (with_status t s) h) (id t) x.
Proof. unfold has_id, write_task. simpl. by rewrite lookup_insert_eq. Qed.

Lemma write_task_other x y t h :
  y ≠ x → taskObjs (write_task x t h) !! y = taskObjs h !! y.
Proof. intros Hne. unfold write_task. simpl. by rewrite lookup_insert_ne. Qed.

Lemma snapshot_getByStatus_moved this x t s h :
  wf this h → x ∈ contents this h →
  ∃ l, snapshot (getByStatus this s) (write_task x (with_status t s) h) = Some l ∧
       x ∈ l.
Proof.
  intros Hwf Hx. eexists. split.
  - apply snapshot_getByStatus. by apply wf_write_task.
  - apply list_elem_of_filter. split; [apply has_status_write_task|done].
Qed.

(** C3 (amended): when the identifier read from the transfer object is a
    non-empty string, [onDrop] is [updateTaskStatus] on that identifier; and
    when the identifier [i] is not the empty string and the first task with
    identifier [i] has a status other than [s], [onDrag(i, dt)] followed by
    [onDrop(dt, s)] on the same transfer object returns [true], after which
    [getByStatus(s)] contains that task. *)
Theorem drag_then_drop this r s h :
  (∀ d i, transfers h !! r = Some d → d !! DRAG_KEY = Some i → i ≠ EmptyString →
          onDrop this (Some r) s h = updateTaskStatus this i s h) ∧
  (∀ i x, wf this h → is_Some (transfers h !! r) → i ≠ EmptyString →
          first_with_id h i (contents this h) x → ¬ has_status h s x →
          ∃ h1 h2 l,
            onDrag this i (Some r) h = Some (tt, h1) ∧
            onDrop this (Some r) s h1 = Some (true, h2) ∧
            snapshot (getByStatus this s) h2 = Some l ∧
            x ∈ l ∧ has_id h2 i x).
Proof.
  split.
  - intros d i E Hd Hi. apply onDrop_delegates; [|done].
    by rewrite (getDraggedTaskId_spec _ _ _ E), Hd.
  - intros i x Hwf [d E] Hi Hfirst Hs.
    set (h1 := write_transfer r (<[DRAG_KEY := i]> d) h).
    assert (Hwf1 : wf this h1) by exact Hwf.
    destruct (updateTaskStatus_found this h1 i s x
                (proj1 (wf_contents _ _ Hwf1)) Hfirst) as (t & Ht & Hit & Hu).
    rewrite decide_False in Hu.
    2:{ intros Hst. apply Hs. unfold has_status.
        change (taskObjs h) with (taskObjs h1). by rewrite Ht, <- Hst. }
    destruct Hfirst as (pre & post & Epp & Hid & _).
    assert (Hx : x ∈ contents this h1).
    { change (contents this h1) with (contents this h). rewrite Epp.
      apply elem_of_app. right. left. }
    destruct (snapshot_getByStatus_moved this x t s h1 Hwf1 Hx) as (l & Hl & Hxl).
    exists h1, (write_task x (with_status t s) h1), l.
    split; [by apply onDrag_spec|].
    split.
    { rewrite (onDrop_delegates this (Some r) i s h1); [done| |done].
      apply getDraggedTaskId_after_write. }
    split; [done|]. split; [done|].
    rewrite <- Hit.
    apply has_id_write_task.
Qed.

(** C5: when exactly one task of the collection has identifier [i], its
    status is [A] and [B] is another status, [updateTaskStatus(i, B)]
    returns [true]; afterwards [getByStatus(B)] contains that task and
    [getByStatus(A)] contains no task with identifier [i]; every other task
    object is as before, the moved task keeps its identifier and payload,
    and the collection holds the same references in the same order. *)
Theorem updateTaskStatus_move this h i x t B :
  wf this h →
  x ∈ contents this h → taskObjs h !! x = Some t → id t = i →
  (∀ y, y ∈ contents this h → has_id h i y → y = x) →
  status t ≠ B →
  ∃ h' lB lA,
    updateTaskStatus this i B h = Some (true, h') ∧
    snapshot (getByStatus this B) h' = Some lB ∧ x ∈ lB ∧
    snapshot (getByStatus this (status t)) h' = Some lA ∧
    (∀ y, y ∈ lA → ¬ has_id h' i y) ∧
    (∀ y, y ≠ x → taskObjs h' !! y = taskObjs h !! y) ∧
    (∃ t', taskObjs h' !! x = Some t' ∧
           id t' = id t ∧ payload t' = payload t ∧ status t' = B) ∧
    contents this h' = contents this h ∧
    arrays h' = arrays h ∧ transfers h' = transfers h.
Proof.
  intros Hwf Hx Ht Hi Huniq HAB.
  pose proof Hwf as [E Hl]%wf_contents.
  assert (Hfirst : first_with_id h i (contents this h) x).
  { destruct (list_elem_of_split_l _ _ Hx) as (pre & post & Epp & Hpre).
    exists pre, post. split; [done|]. split.
    - unfold has_id. by rewrite Ht, <- Hi.
    - intros y Hy.
      assert (Hyl : y ∈ contents this h)
        by (rewrite Epp; apply elem_of_app; by left).
      destruct (Hl y Hyl) as [ty Hty]. exists ty. split; [done|].
      intros Hiy. apply Hpre.
      rewrite <- (Huniq y Hyl); [done|]. unfold has_id. by rewrite Hty, <- Hiy. }
  destruct (updateTaskStatus_found _ _ _ B _ E Hfirst) as (t0 & Ht0 & _ & Hu).
  assert (t0 = t) as -> by congruence.
  rewrite decide_False in Hu by done.
  set (h' := write_task x (with_status t B) h) in *.
  assert (Hwf' : wf this h') by by apply wf_write_task.
  exists h', (filter (has_status h' B) (contents this h')),
         (filter (has_status h' (status t)) (contents this h')).
  split; [done|].
  split; [by apply snapshot_getByStatus|].
  split.
  { apply list_elem_of_filter. split; [apply has_status_write_task|done]. }
  split; [by apply snapshot_getByStatus|].
  split.
  { intros y [Hsy Hy]%list_elem_of_filter Hidy.
    destruct (decide (y = x)) as [->|Hne].
    - unfold has_status, h', write_task in Hsy. simpl in Hsy.
      rewrite lookup_insert_eq in Hsy. simpl in Hsy. congruence.
    - apply Hne, Huniq; [done|].
      unfold has_id in *. by rewrite <- (write_task_other x y (with_status t B) h). }
  split; [intros y Hne; by apply write_task_other|].
  split; [|done].
  exists (with_status t B). split; [|done].
  unfold h', write_task. simpl. by rewrite lookup_insert_eq.
Qed.

(** C6: when every task of the collection carries one of the statuses of
    [COLUMN_TITLES], [getAll()] returns the tasks the collection holds, each
    task the collection holds is in the result of [getByStatus(s)] for one
    status [s] of [COLUMN_TITLES] and for no other status, and a task is in
    the result of [getAll()] exactly when it is in the result of
    [getByStatus(s)] for some [s] of [COLUMN_TITLES]. *)
Theorem filter_partition this h :
  wf this h →
  (∀ x, x ∈ contents this h → ∃ s, s ∈ COLUMN_TITLES ∧ has_status h s x) →
  snapshot (getAll this) h = Some (contents this h) ∧
  (∀ s, ∃ l, snapshot (getByStatus this s) h = Some l ∧
             ∀ x, x ∈ l ↔ x ∈ contents this h ∧ has_status h s x) ∧
  (∀ x, x ∈ contents this h →
     ∃ s, s ∈ COLUMN_TITLES ∧
          (∃ l, snapshot (getByStatus this s) h = Some l ∧ x ∈ l) ∧
          ∀ s' l', snapshot (getByStatus this s') h = Some l' → x ∈ l' →
                   s' = s) ∧
  (∀ x, x ∈ contents this h ↔
        ∃ s l, s ∈ COLUMN_TITLES ∧
               snapshot (getByStatus this s) h = Some l ∧ x ∈ l).
Proof.
  intros Hwf Hclosed.
  split; [by apply snapshot_getAll|].
  split.
  { intros s. eexists. split; [by apply snapshot_getByStatus|].
    intros x. rewrite list_elem_of_filter. tauto. }
  split.
  - intros x Hx. destruct (Hclosed x Hx) as (s & Hs & Hxs).
    exists s. split; [done|]. split.
    + eexists. split; [by apply snapshot_getByStatus|].
      by apply list_elem_of_filter.
    + intros s' l'. rewrite snapshot_getByStatus by done.
      intros [= <-] [Hxs' _]%list_elem_of_filter.
      unfold has_status in *. congruence.
  - intros x. split.
    + intros Hx. destruct (Hclosed x Hx) as (s & Hs & Hxs).
      exists s. eexists. split; [done|].
      split; [by apply snapshot_getByStatus|]. by apply list_elem_of_filter.
    + intros (s & l & _ & Hl & Hx).
      rewrite snapshot_getByStatus in Hl by done. injection Hl as <-.
      by apply list_elem_of_filter in Hx as [_ Hx].
Qed.

(** *** Appending and constructing *)

Lemma add_contents this x h :
  wf this h → is_Some (taskObjs h !! x) →
  add this x h = Some (tt, write_array (tasks this) (contents this h ++ [x]) h) ∧
  wf this (write_array (tasks this) (contents this h ++ [x]) h) ∧
  contents this (write_array (tasks this) (contents this h ++ [x]) h) =
    contents this h ++ [x].
Proof.
  intros Hwf Hx. pose proof Hwf as [E _]%wf_contents.
  split; [by apply add_spec|]. split; [by apply wf_push|].
  apply elems_write_array.
Qed.

Lemma constructor_spec a l h :
  arrays h !! a = Some l →
  ∃ r, r ≠ a ∧ constructor (Some a) h = Some (mkTaskList r, write_array r l h).
Proof.
  intros E. exists (fresh (dom (arrays h))). split.
  - intros Hr. assert (a ∈ dom (arrays h)) as Ha by (apply elem_of_dom; eauto).
    rewrite <- Hr in Ha. by apply is_fresh in Ha.
  - unfold constructor, Array_spread, bind, ret. simpl.
    by rewrite (read_array_Some _ _ _ E).
Qed.

(** C7: [getAll()] returns the task references the collection holds, in the
    order it holds them; the constructor takes over the order of the initial
    array and [add] puts the new task last, so that order is insertion
    order; [getByStatus(s)] returns the tasks with status [s] in the order
    the collection holds them; and after adding three tasks [a], [b], [c]
    with status [s], in that order, [getByStatus(s)] ends with [a], [b],
    [c] (and is exactly [a], [b], [c] when the collection held no task with
    that status). *)
Theorem insertion_order this h a b c s :
  wf this h →
  has_status h s a → has_status h s b → has_status h s c →
  snapshot (getAll this) h = Some (contents this h) ∧
  (∀ arr l, arrays h !! arr = Some l →
     ∃ this' h', constructor (Some arr) h = Some (this', h') ∧
                 contents this' h' = l) ∧
  (∃ h1, add this a h = Some (tt, h1) ∧
         snapshot (getAll this) h1 = Some (contents this h ++ [a])) ∧
  (∀ s', ∃ l, snapshot (getByStatus this s') h = Some l ∧
              l = filter (has_status h s') (contents this h) ∧
              l `sublist_of` contents this h) ∧
  ∃ h3 l0,
    (add this a ;;' add this b ;;' add this c) h = Some (tt, h3) ∧
    snapshot (getByStatus this s) h = Some l0 ∧
    snapshot (getByStatus this s) h3 = Some (l0 ++ [a; b; c]) ∧
    snapshot (getAll this) h3 = Some (contents this h ++ [a; b; c]).
Proof.
  intros Hwf Ha Hb Hc.
  assert (Hobj : ∀ h' x, taskObjs h' = taskObjs h → has_status h s x →
                         is_Some (taskObjs h' !! x)).
  { intros h' x -> Hx. unfold has_status in Hx.
    destruct (taskObjs h !! x); [by eexists|done]. }
  destruct (add_contents this a h Hwf (Hobj h a eq_refl Ha)) as (Ea & Hwf1 & Hc1).
  set (h1 := write_array (tasks this) (contents this h ++ [a]) h) in *.
  destruct (add_contents this b h1 Hwf1 (Hobj h1 b eq_refl Hb)) as (Eb & Hwf2 & Hc2).
  set (h2 := write_array (tasks this) (contents this h1 ++ [b]) h1) in *.
  destruct (add_contents this c h2 Hwf2 (Hobj h2 c eq_refl Hc)) as (Ec & Hwf3 & Hc3).
  set (h3 := write_array (tasks this) (contents this h2 ++ [c]) h2) in *.
  assert (Hc3' : contents this h3 = contents this h ++ [a; b; c]).
  { rewrite Hc3, Hc2, Hc1. by rewrite <- !app_assoc. }
  split; [by apply snapshot_getAll|].
  split.
  { intros arr l E. destruct (constructor_spec _ _ _ E) as (r & _ & Hr).
    eexists _, _. split; [exact Hr|]. apply elems_write_array. }
  split.
  { exists h1. split; [done|]. by rewrite snapshot_getAll, Hc1. }
  split.
  { intros s'. eexists. split; [by apply snapshot_getByStatus|].
    split; [done|]. apply sublist_filter. }
  exists h3, (filter (has_status h s) (contents this h)).
  split.
  { by rewrite (bind_Some _ _ _ _ _ Ea), (bind_Some _ _ _ _ _ Eb). }
  split; [by apply snapshot_getByStatus|].
  split; [|by rewrite snapshot_getAll, Hc3'].
  rewrite snapshot_getByStatus, Hc3' by done. f_equal.
  change (has_status h3 s) with (has_status h s).
  rewrite filter_app. f_equal.
  by rewrite !filter_cons_True.
Qed.

(** C8: when the collection's array is [pre ++ x :: post], no task of [pre]
    has identifier [i] and the task at [x] has, [updateTaskStatus(i, s)]
    looks at [x] alone: it returns whether the status of [x] differs from
    [s] and, if it does, writes [s] into the task object at [x]; every other
    task object, among them every later task with the same identifier, is
    as before; the elements of [post] are not read, since replacing them by
    any other references, dangling ones included, gives the same result and
    the same task objects; and [onDrop] with the identifier [i] in the
    transfer object does the same. *)
Theorem updateTaskStatus_first_match this h pre x post t i s :
  arrays h !! tasks this = Some (pre ++ x :: post) →
  (∀ y, y ∈ pre → ∃ t', taskObjs h !! y = Some t' ∧ id t' ≠ i) →
  taskObjs h !! x = Some t → id t = i →
  ∃ b h',
    updateTaskStatus this i s h = Some (b, h') ∧
    b = bool_decide (status t ≠ s) ∧
    h' = (if b then write_task x (with_status t s) h else h) ∧
    (∀ y, y ≠ x → taskObjs h' !! y = taskObjs h !! y) ∧
    (∀ post', ∃ h'',
       updateTaskStatus this i s
         (write_array (tasks this) (pre ++ x :: post') h) = Some (b, h'') ∧
       taskObjs h'' = taskObjs h') ∧
    (∀ r d, transfers h !! r = Some d → d !! DRAG_KEY = Some i → i ≠ EmptyString →
            onDrop this (Some r) s h = Some (b, h')).
Proof.
  intros E Hpre Ht Hi.
  pose proof (updateTaskStatus_first _ _ _ _ _ _ _ s E Hpre Ht Hi) as Hu.
  exists (bool_decide (status t ≠ s)),
         (if bool_decide (status t ≠ s)
          then write_task x (with_status t s) h else h).
  assert (Hres : (if decide (status t = s) then (false, h)
                  else (true, write_task x (with_status t s) h)) =
                 (bool_decide (status t ≠ s),
                  if bool_decide (status t ≠ s)
                  then write_task x (with_status t s) h else h)).
  { case_decide; case_bool_decide; congruence. }
  rewrite Hres in Hu.
  split; [done|]. split; [done|]. split; [done|].
  split.
  { intros y Hne. case_bool_decide; [by apply write_task_other|done]. }
  split.
  - intros post'.
    set (hp := write_array (tasks this) (pre ++ x :: post') h).
    assert (Ep : arrays hp !! tasks this = Some (pre ++ x :: post'))
      by (unfold hp, write_array; simpl; by rewrite lookup_insert_eq).
    pose proof (updateTaskStatus_first this hp pre x post' t i s Ep Hpre Ht Hi)
      as Hup.
    rewrite Hup. case_decide; case_bool_decide; try congruence; by eexists.
  - intros r d Er Hd Hne.
    rewrite (onDrop_delegates this (Some r) i s h); [done| |done].
    by rewrite (getDraggedTaskId_spec _ _ _ Er), Hd.
Qed.

(** *** Every call completes *)

Lemma usable_write_array this dataTransfer x r l h :
  r ≠ tasks this → usable this dataTransfer x h →
  usable this dataTransfer x (write_array r l h).
Proof. intros Hne (Hwf & Hdt & Hx). split; [by apply wf_write_array|done]. Qed.

Lemma usable_write_task this dataTransfer x y t h :
  usable this dataTransfer x h → usable this dataTransfer x (write_task y t h).
Proof.
  intros (Hwf & Hdt & Hx). split; [by apply wf_write_task|]. split; [done|].
  unfold write_task. simpl. destruct (decide (y = x)) as [->|Hne].
  - rewrite lookup_insert_eq. by eexists.
  - by rewrite lookup_insert_ne.
Qed.

Lemma usable_write_transfer this dataTransfer x r d h :
  usable this dataTransfer x h → usable this dataTransfer x (write_transfer r d h).
Proof.
  intros (Hwf & Hdt & Hx). split; [done|]. split; [|done].
  destruct dataTransfer as [r'|]; [|done].
  unfold transfer_ok, write_transfer in *. simpl.
  destruct (decide (r = r')) as [->|Hne].
  - rewrite lookup_insert_eq. by eexists.
  - by rewrite lookup_insert_ne.
Qed.

Lemma updateTaskStatus_completes this dataTransfer x i s h :
  usable this dataTransfer x h →
  completes (updateTaskStatus this i s) (usable this dataTransfer x) h.
Proof.
  intros Hus. pose proof Hus as ([E Hl]%wf_contents & _).
  destruct (first_with_id_or_absent h i _ Hl) as [Hno|[y Hfirst]].
  - exists false, h. split; [|done]. by apply (updateTaskStatus_absent _ _ _ _ _ E).
  - destruct (updateTaskStatus_found _ _ _ s _ E Hfirst) as (t & _ & _ & Hu).
    destruct (decide (status t = s)); eexists _, _; (split; [exact Hu|]);
      [done|by apply usable_write_task].
Qed.

(** C9: in a store where the collection is well formed, the transfer
    argument is [null] or a transfer object and the argument of [add] is a
    task object, each of [getAll], [getByStatus], [add], [updateTaskStatus],
    [onDrag] and [onDrop] completes with a value for every identifier and
    status, and leaves a store in which the same holds, so that any sequence
    of calls completes. *)
Theorem operations_total this dataTransfer x i s h :
  usable this dataTransfer x h →
  completes (getAll this) (usable this dataTransfer x) h ∧
  completes (getByStatus this s) (usable this dataTransfer x) h ∧
  completes (add this x) (usable this dataTransfer x) h ∧
  completes (updateTaskStatus this i s) (usable this dataTransfer x) h ∧
  completes (onDrag this i dataTransfer) (usable this dataTransfer x) h ∧
  completes (onDrop this dataTransfer s) (usable this dataTransfer x) h.
Proof.
  intros Hus. pose proof Hus as (Hwf & Hdt & Hx).
  pose proof Hwf as [E Hl]%wf_contents.
  split.
  { destruct (getAll_spec _ _ _ E) as (r & Hr & Hg).
    eexists _, _. split; [exact Hg|].
    apply usable_write_array; [congruence|done]. }
  split.
  { destruct (getByStatus_spec _ s _ Hwf) as (r & Hr & Hg).
    eexists _, _. split; [exact Hg|].
    apply usable_write_array; [congruence|done]. }
  split.
  { destruct (add_contents this x h Hwf Hx) as (Ea & Hwf' & _).
    eexists _, _. split; [exact Ea|]. done. }
  split; [by apply updateTaskStatus_completes|].
  split.
  { destruct dataTransfer as [r|].
    - destruct Hdt as [d Hd]. eexists _, _.
      split; [by apply onDrag_spec|]. by apply usable_write_transfer.
    - by exists tt, h. }
  assert (∃ v, getDraggedTaskId dataTransfer h = Some (v, h)) as [v Hv].
  { destruct dataTransfer as [r|]; [|by eexists].
    destruct Hdt as [d Hd]. eexists. by apply getDraggedTaskId_spec. }
  destruct v as [j|].
  - destruct (decide (j = EmptyString)) as [->|Hj].
    + exists false, h. split; [by apply onDrop_empty|done].
    + unfold completes. rewrite (onDrop_delegates _ _ _ _ _ Hv Hj).
      by apply updateTaskStatus_completes.
  - exists false, h. split; [by apply onDrop_absent|done].
Qed.

(** ** Further properties of the class *)

Lemma arrays_write_array_ne r r' l h :
  r ≠ r' → arrays (write_array r l h) !! r' = arrays h !! r'.
Proof. intros Hne. unfold write_array. simpl. by rewrite lookup_insert_ne. Qed.

Lemma wf_intro this h l :
  arrays h !! tasks this = Some l →
  (∀ x, x ∈ l → is_Some (taskObjs h !! x)) → wf this h.
Proof. intros E Hl. by exists l. Qed.

(** X1: the constructor copies the array it is given.  The collection is
    well formed, holds the elements of the initial array in the same order
    and shares its task objects; the array it keeps is a new one, so
    whatever is later done to the initial array, [getAll()] and
    [getByStatus()] return what they returned before. *)
Theorem constructor_copies_initial_array arr l l' h :
  arrays h !! arr = Some l →
  (∀ x, x ∈ l → is_Some (taskObjs h !! x)) →
  ∃ this h1,
    constructor (Some arr) h = Some (this, h1) ∧
    tasks this ≠ arr ∧ wf this h1 ∧
    contents this h1 = l ∧ elems arr h1 = l ∧ taskObjs h1 = taskObjs h ∧
    wf this (mutate_array arr l' h1) ∧
    snapshot (getAll this) (mutate_array arr l' h1) = Some l ∧
    ∀ s, snapshot (getByStatus this s) (mutate_array arr l' h1) =
         snapshot (getByStatus this s) h1.
Proof.
  intros E Hl. destruct (constructor_spec _ _ _ E) as (r & Hne & Hc).
  set (this := mkTaskList r). set (h1 := write_array r l h).
  assert (Hc1 : contents this h1 = l) by apply elems_write_array.
  assert (Hwf1 : wf this h1).
  { apply (wf_intro this h1 l); [|done].
    unfold h1, write_array. simpl. by rewrite lookup_insert_eq. }
  assert (Hne' : arr ≠ tasks this) by (simpl; congruence).
  assert (Hwf2 : wf this (mutate_array arr l' h1)) by by apply wf_write_array.
  assert (Hc2 : contents this (mutate_array arr l' h1) = l).
  { transitivity (contents this h1); [|done]. unfold contents, mutate_array.
    by rewrite arrays_write_array_ne. }
  exists this, h1. split; [done|]. split; [done|]. split; [done|].
  split; [done|]. split.
  { unfold elems, h1. rewrite arrays_write_array_ne by done. by rewrite E. }
  split; [done|]. split; [done|].
  split; [by rewrite snapshot_getAll, Hc2|].
  intros s. rewrite !snapshot_getByStatus by done. by rewrite Hc1, Hc2.
Qed.

(** X2: the constructor without argument makes an empty collection in any
    store: [getAll()] and every [getByStatus()] return an empty array and
    [updateTaskStatus] returns [false] for every identifier and status,
    leaving the store as it is. *)
Theorem constructor_default_empty h i s :
  ∃ this h1,
    constructor None h = Some (this, h1) ∧
    wf this h1 ∧ taskObjs h1 = taskObjs h ∧
    snapshot (getAll this) h1 = Some [] ∧
    snapshot (getByStatus this s) h1 = Some [] ∧
    updateTaskStatus this i s h1 = Some (false, h1).
Proof.
  set (a := fresh (dom (arrays h))). set (h0 := write_array a [] h).
  assert (E0 : arrays h0 !! a = Some [])
    by (unfold h0, write_array; simpl; by rewrite lookup_insert_eq).
  destruct (constructor_spec _ _ _ E0) as (r & Hne & Hc).
  set (this := mkTaskList r). set (h1 := write_array r [] h0).
  assert (E1 : arrays h1 !! tasks this = Some [])
    by (unfold h1, write_array; simpl; by rewrite lookup_insert_eq).
  assert (Hwf : wf this h1).
  { apply (wf_intro _ _ _ E1). intros x Hx. by apply elem_of_nil in Hx. }
  assert (Hc1 : contents this h1 = []) by by apply contents_Some.
  exists this, h1. split.
  { unfold constructor in *. simpl in Hc.
    unfold bind at 1. unfold new_array at 1. fold a h0.
    unfold bind at 1 in Hc. unfold ret at 1 in Hc. exact Hc. }
  split; [done|]. split; [done|].
  split; [by rewrite snapshot_getAll, Hc1|].
  split; [by rewrite snapshot_getByStatus, Hc1|].
  apply (updateTaskStatus_absent _ _ _ _ _ E1).
  intros y Hy. by apply elem_of_nil in Hy.
Qed.

(** X3: [add(newTask)] puts the task last and touches nothing else: the task
    objects, the transfer objects and every other array are as before,
    [getAll()] returns one element more, and [getByStatus(s)] returns what
    it returned before, followed by the new task exactly when the task's
    status is [s]. *)
Theorem add_effect this x t s h :
  wf this h → taskObjs h !! x = Some t →
  ∃ h1,
    add this x h = Some (tt, h1) ∧ wf this h1 ∧
    taskObjs h1 = taskObjs h ∧ transfers h1 = transfers h ∧
    (∀ r, r ≠ tasks this → arrays h1 !! r = arrays h !! r) ∧
    snapshot (getAll this) h1 = Some (contents this h ++ [x]) ∧
    snapshot (getByStatus this s) h1 =
      Some (filter (has_status h s) (contents this h) ++
            (if decide (status t = s) then [x] else [])).
Proof.
  intros Hwf Ht.
  destruct (add_contents this x h Hwf) as (Ea & Hwf1 & Hc1); [by eexists|].
  eexists. split; [exact Ea|]. split; [done|]. split; [done|]. split; [done|].
  split; [intros r Hne; by apply arrays_write_array_ne|].
  split; [by rewrite snapshot_getAll, Hc1|].
  rewrite snapshot_getByStatus, Hc1 by done. f_equal.
  rewrite filter_app. f_equal.
  rewrite filter_cons, filter_nil.
  destruct (decide (status t = s)) as [Hs|Hs].
  - rewrite decide_True; [done|]. unfold has_status. simpl. by rewrite Ht, <- Hs.
  - rewrite decide_False; [done|]. unfold has_status. simpl. rewrite Ht. simpl.
    congruence.
Qed.

Lemma updateTaskStatus_cases this i s h :
  wf this h →
  updateTaskStatus this i s h = Some (false, h) ∨
  ∃ x t, first_with_id h i (contents this h) x ∧
         taskObjs h !! x = Some t ∧ id t = i ∧ status t ≠ s ∧
         updateTaskStatus this i s h =
           Some (true, write_task x (with_status t s) h).
Proof.
  intros [E Hl]%wf_contents.
  destruct (first_with_id_or_absent h i _ Hl) as [Hno|[x Hfirst]].
  - left. by apply (updateTaskStatus_absent _ _ _ _ _ E).
  - destruct (updateTaskStatus_found _ _ _ s _ E Hfirst) as (t & Ht & Hi & Hu).
    destruct (decide (status t = s)) as [Hs|Hs]; [by left|].
    right. by exists x, t.
Qed.

(** Writing a status keeps identifiers, hence the first task with a given
    identifier. *)
Lemma first_with_id_write_task h i l x y t s :
  taskObjs h !! y = Some t →
  first_with_id h i l x →
  first_with_id (write_task y (with_status t s) h) i l x.
Proof.
  intros Ht (pre & post & Epp & Hx & Hpre).
  assert (Hlk : ∀ z, id <$> taskObjs (write_task y (with_status t s) h) !! z =
                     id <$> taskObjs h !! z).
  { intros z. unfold write_task. simpl. destruct (decide (y = z)) as [->|Hne].
    - by rewrite lookup_insert_eq, Ht.
    - by rewrite lookup_insert_ne. }
  exists pre, post. split; [done|]. split.
  - unfold has_id. by rewrite Hlk.
  - intros z Hz. destruct (Hpre z Hz) as (tz & Htz & Hne).
    pose proof (Hlk z) as Hz'. rewrite Htz in Hz'.
    destruct (taskObjs (write_task y (with_status t s) h) !! z) as [tz'|];
      simpl in Hz'; [|done].
    exists tz'. split; [done|]. injection Hz' as Hz'. congruence.
Qed.

(** X4: an array returned earlier by [getAll()] or [getByStatus()] is not
    kept up to date: a later [add] or [updateTaskStatus] leaves its elements
    as they were when it was returned. *)
Theorem earlier_snapshot_unchanged this s0 r h h1 x i s :
  wf this h →
  getAll this h = Some (r, h1) ∨ getByStatus this s0 h = Some (r, h1) →
  is_Some (taskObjs h !! x) →
  (∃ h2, add this x h1 = Some (tt, h2) ∧ elems r h2 = elems r h1 ∧
         contents this h2 = contents this h ++ [x]) ∧
  (∃ b h2, updateTaskStatus this i s h1 = Some (b, h2) ∧
           elems r h2 = elems r h1).
Proof.
  intros Hwf Hcall Hx.
  destruct (read_returns_new_array _ _ _ _ _ Hwf Hcall) as (Hne & l & ->).
  assert (Hwf1 : wf this (write_array r l h)) by by apply wf_write_array.
  assert (Hc1 : contents this (write_array r l h) = contents this h)
    by (unfold contents; by rewrite arrays_write_array_ne).
  split.
  - destruct (add_contents this x _ Hwf1 Hx) as (Ea & _ & Hc2).
    eexists. split; [exact Ea|]. split; [|by rewrite Hc2, Hc1].
    unfold elems at 1. by rewrite arrays_write_array_ne.
  - destruct (updateTaskStatus_cases this i s _ Hwf1)
      as [Hu|(y & t & _ & _ & _ & _ & Hu)]; eexists _, _; by split.
Qed.

(** X5: a task added with an identifier no task of the collection has is
    found by [updateTaskStatus]: adding it and then asking for another
    status returns [true]; afterwards the added task object, read at its
    location, carries that status with its identifier and payload as
    before, it is the last element [getAll()] returns and it is in the
    result of [getByStatus] for that status, and every other task object is
    as it was. *)
Theorem add_then_updateTaskStatus this x t s h :
  wf this h → taskObjs h !! x = Some t →
  (∀ y, y ∈ contents this h → ¬ has_id h (id t) y) →
  status t ≠ s →
  ∃ h1 h2 l,
    add this x h = Some (tt, h1) ∧
    updateTaskStatus this (id t) s h1 = Some (true, h2) ∧
    taskObjs h2 !! x = Some (mkTask (id t) s (payload t)) ∧
    (∀ y, y ≠ x → taskObjs h2 !! y = taskObjs h !! y) ∧
    snapshot (getAll this) h2 = Some (contents this h ++ [x]) ∧
    snapshot (getByStatus this s) h2 = Some l ∧ x ∈ l.
Proof.
  intros Hwf Ht Hno Hs. pose proof Hwf as [E Hl]%wf_contents.
  destruct (add_contents this x h Hwf) as (Ea & Hwf1 & Hc1); [by eexists|].
  set (h1 := write_array (tasks this) (contents this h ++ [x]) h) in *.
  pose proof Hwf1 as [E1 _]%wf_contents. rewrite Hc1 in E1.
  assert (Hu : updateTaskStatus this (id t) s h1 =
               Some (true, write_task x (with_status t s) h1)).
  { rewrite (updateTaskStatus_first _ _ _ _ _ t (id t) s E1); [|  |done|done].
    - by rewrite decide_False.
    - intros y Hy. destruct (Hl y Hy) as [ty Hty]. exists ty. split; [done|].
      intros Hiy. apply (Hno y Hy). unfold has_id. rewrite Hty. simpl.
      by rewrite Hiy. }
  set (h2 := write_task x (with_status t s) h1) in *.
  assert (Hwf2 : wf this h2) by by apply wf_write_task.
  assert (Hx2 : taskObjs h2 !! x = Some (mkTask (id t) s (payload t))).
  { unfold h2, write_task. simpl. by rewrite lookup_insert_eq. }
  exists h1, h2, (filter (has_status h2 s) (contents this h2)).
  split; [done|]. split; [done|]. split; [done|].
  split; [intros y Hne; unfold h2; by rewrite write_task_other|].
  split.
  { rewrite snapshot_getAll by done.
    change (contents this h2) with (contents this h1). by rewrite Hc1. }
  split; [by apply snapshot_getByStatus|].
  apply list_elem_of_filter. split.
  - unfold has_status. by rewrite Hx2.
  - change (contents this h2) with (contents this h1). rewrite Hc1.
    apply elem_of_app. right. left.
Qed.


Lemma with_status_back t s : with_status (with_status t s) (status t) = t.
Proof. by destruct t. Qed.

Lemma write_task_back x t s h :
  taskObjs h !! x = Some t →
  write_task x (with_status (with_status t s) (status t))
    (write_task x (with_status t s) h) = h.
Proof.
  intros Ht. destruct h as [objs arrs trs]. unfold write_task. simpl in *.
  f_equal. rewrite with_status_back, insert_insert_eq. by apply insert_id.
Qed.

Lemma write_task_changes x t s h :
  taskObjs h !! x = Some t → status t ≠ s →
  write_task x (with_status t s) h ≠ h.
Proof.
  intros Ht Hs Heq.
  assert (taskObjs (write_task x (with_status t s) h) !! x = Some t) as Hx
    by by rewrite Heq.
  unfold write_task in Hx. simpl in Hx. rewrite lookup_insert_eq in Hx.
  injection Hx as Hx. apply Hs. by rewrite <- Hx.
Qed.

(** X7: asking twice for the same move is refused the second time: whatever
    the first [updateTaskStatus(i, s)] did, the same call right after it
    returns [false] and changes nothing. *)
Theorem updateTaskStatus_twice this i s h :
  wf this h →
  ∃ b h1,
    updateTaskStatus this i s h = Some (b, h1) ∧
    updateTaskStatus this i s h1 = Some (false, h1).
Proof.
  intros Hwf.
  destruct (updateTaskStatus_cases this i s h Hwf)
    as [Hu|(x & t & Hfirst & Ht & Hi & Hs & Hu)].
  - by exists false, h.
  - eexists _, _. split; [exact Hu|].
    set (h1 := write_task x (with_status t s) h).
    assert (Hwf1 : wf this h1) by by apply wf_write_task.
    pose proof (first_with_id_write_task h i _ x x t s Ht Hfirst) as Hfirst1.
    destruct (updateTaskStatus_found this h1 i s x
                (proj1 (wf_contents _ _ Hwf1)) Hfirst1) as (t1 & Ht1 & _ & Hu1).
    rewrite Hu1, decide_True; [done|].
    unfold h1, write_task in Ht1. simpl in Ht1.
    rewrite lookup_insert_eq in Ht1. by injection Ht1 as <-.
Qed.

(** X8: moving a task and moving it back restores the store: when the first
    task with identifier [i] has a status other than [s],
    [updateTaskStatus(i, s)] followed by [updateTaskStatus] with the former
    status both return [true] and leave the store exactly as it was. *)
Theorem updateTaskStatus_there_and_back this i s x t h :
  wf this h →
  first_with_id h i (contents this h) x → taskObjs h !! x = Some t →
  status t ≠ s →
  ∃ h1,
    updateTaskStatus this i s h = Some (true, h1) ∧ h1 ≠ h ∧
    updateTaskStatus this i (status t) h1 = Some (true, h).
Proof.
  intros Hwf Hfirst Ht Hs.
  destruct (updateTaskStatus_found this h i s x
              (proj1 (wf_contents _ _ Hwf)) Hfirst) as (t0 & Ht0 & _ & Hu).
  assert (t0 = t) as -> by congruence.
  rewrite decide_False in Hu by done.
  set (h1 := write_task x (with_status t s) h) in *.
  assert (Hwf1 : wf this h1) by by apply wf_write_task.
  pose proof (first_with_id_write_task h i _ x x t s Ht Hfirst) as Hfirst1.
  destruct (updateTaskStatus_found this h1 i (status t) x
              (proj1 (wf_contents _ _ Hwf1)) Hfirst1) as (t1 & Ht1 & _ & Hu1).
  assert (t1 = with_status t s) as ->.
  { unfold h1, write_task in Ht1. simpl in Ht1.
    rewrite lookup_insert_eq in Ht1. by injection Ht1. }
  exists h1. split; [done|]. split; [by apply write_task_changes|].
  rewrite Hu1, decide_False by (simpl; congruence).
  unfold h1. by rewrite write_task_back.
Qed.

(** X9: what [updateTaskStatus] never does.  In a well-formed collection it
    completes; it returns [true] exactly when the store has changed; the
    arrays, the transfer objects and the set of task objects are as before;
    and every task object keeps its identifier and payload and has either
    its former status or the target status. *)
Theorem updateTaskStatus_frame this i s h :
  wf this h →
  ∃ b h',
    updateTaskStatus this i s h = Some (b, h') ∧
    (b = true ↔ h' ≠ h) ∧
    wf this h' ∧
    arrays h' = arrays h ∧ transfers h' = transfers h ∧
    dom (taskObjs h') = dom (taskObjs h) ∧
    ∀ y t, taskObjs h !! y = Some t →
           ∃ t', taskObjs h' !! y = Some t' ∧
                 id t' = id t ∧ payload t' = payload t ∧
                 (status t' = status t ∨ status t' = s).
Proof.
  intros Hwf.
  destruct (updateTaskStatus_cases this i s h Hwf)
    as [Hu|(x & t & Hfirst & Ht & Hi & Hs & Hu)].
  - exists false, h. split; [done|]. split; [split; [done|by intros []]|].
    split; [done|]. split; [done|]. split; [done|]. split; [done|].
    intros y t Ht. exists t. auto.
  - eexists _, _. split; [exact Hu|].
    split; [split; [intros _; by apply write_task_changes|done]|].
    split; [by apply wf_write_task|]. split; [done|]. split; [done|].
    split.
    { unfold write_task. simpl. rewrite dom_insert_L.
      apply subseteq_union_1_L, singleton_subseteq_l, elem_of_dom.
      by eexists. }
    intros y ty Hty. destruct (decide (y = x)) as [->|Hne].
    + exists (with_status t s). assert (ty = t) as -> by congruence.
      unfold write_task. simpl. rewrite lookup_insert_eq. auto.
    + exists ty. rewrite write_task_other by done. auto.
Qed.

(** X10: every call of [getAll()] returns an array of its own.  Two calls
    in a row return two different arrays, neither of them the array the
    collection keeps, both holding the collection's task references in
    order; the task objects and the arrays that existed before are as they
    were. *)
Theorem getAll_twice this h :
  wf this h →
  ∃ r1 h1 r2 h2,
    getAll this h = Some (r1, h1) ∧ getAll this h1 = Some (r2, h2) ∧
    r1 ≠ r2 ∧ r1 ≠ tasks this ∧ r2 ≠ tasks this ∧
    elems r1 h2 = contents this h ∧ elems r2 h2 = contents this h ∧
    contents this h2 = contents this h ∧
    taskObjs h2 = taskObjs h ∧
    ∀ r, is_Some (arrays h !! r) → arrays h2 !! r = arrays h !! r.
Proof.
  intros [E _]%wf_contents.
  destruct (getAll_spec _ _ _ E) as (r1 & Hr1 & Hg1).
  set (h1 := write_array r1 (contents this h) h) in *.
  assert (Hne1 : r1 ≠ tasks this) by congruence.
  assert (E1 : arrays h1 !! tasks this = Some (contents this h))
    by (unfold h1; by rewrite arrays_write_array_ne).
  destruct (getAll_spec _ _ _ E1) as (r2 & Hr2 & Hg2).
  set (h2 := write_array r2 (contents this h) h1) in *.
  assert (Hne2 : r2 ≠ tasks this) by congruence.
  assert (Hne12 : r1 ≠ r2).
  { intros <-. unfold h1, write_array in Hr2. simpl in Hr2.
    by rewrite lookup_insert_eq in Hr2. }
  exists r1, h1, r2, h2. split; [done|]. split; [done|]. split; [done|].
  split; [done|]. split; [done|]. split.
  { unfold elems, h2. rewrite arrays_write_array_ne by done.
    apply elems_write_array. }
  split; [apply elems_write_array|]. split.
  { unfold contents, h2. rewrite arrays_write_array_ne by done. by rewrite E1. }
  split; [done|].
  intros r [l Hl].
  assert (Hr1r : r1 ≠ r) by congruence.
  assert (Hl1 : arrays h1 !! r = Some l)
    by (unfold h1; by rewrite arrays_write_array_ne).
  assert (Hr2r : r2 ≠ r) by congruence.
  unfold h2. rewrite arrays_write_array_ne by done. congruence.
Qed.

(** ** The board component *)

Lemma elems_write_array_other r r' l h :
  r ≠ r' → elems r' (write_array r l h) = elems r' h.
Proof. intros Hne. unfold elems. by rewrite arrays_write_array_ne. Qed.

Lemma contents_write_array_other this r l h :
  r ≠ tasks this → contents this (write_array r l h) = contents this h.
Proof. intros Hne. unfold contents. by rewrite arrays_write_array_ne. Qed.

(** The three columns, one [getByStatus] after the other. *)
Lemma renderColumns_spec b h :
  wf (taskList b) h →
  ∃ r1 r2 r3 h',
    renderColumns b h =
      Some ([("To Do", r1); ("In Progress", r2); ("Done", r3)], h') ∧
    elems r1 h' = filter (has_status h "To Do") (contents (taskList b) h) ∧
    elems r2 h' = filter (has_status h "In Progress") (contents (taskList b) h) ∧
    elems r3 h' = filter (has_status h "Done") (contents (taskList b) h) ∧
    wf (taskList b) h' ∧
    contents (taskList b) h' = contents (taskList b) h ∧
    taskObjs h' = taskObjs h ∧ transfers h' = transfers h.
Proof.
  intros Hwf. set (this := taskList b) in *.
  pose proof Hwf as [E _]%wf_contents.
  destruct (getByStatus_spec this "To Do" h Hwf) as (r1 & Hr1 & Hg1).
  set (h1 := write_array r1 (filter (has_status h "To Do") (contents this h)) h) in *.
  assert (Hne1 : r1 ≠ tasks this) by congruence.
  assert (Hwf1 : wf this h1) by by apply wf_write_array.
  assert (Hc1 : contents this h1 = contents this h)
    by by apply contents_write_array_other.
  destruct (getByStatus_spec this "In Progress" h1 Hwf1) as (r2 & Hr2 & Hg2).
  rewrite Hc1 in Hg2.
  set (h2 := write_array r2 (filter (has_status h1 "In Progress") (contents this h)) h1) in *.
  assert (Hne2 : r2 ≠ tasks this)
    by (pose proof (proj1 (wf_contents _ _ Hwf1)); congruence).
  assert (Hwf2 : wf this h2) by by apply wf_write_array.
  assert (Hc2 : contents this h2 = contents this h)
    by (unfold h2; by rewrite contents_write_array_other).
  destruct (getByStatus_spec this "Done" h2 Hwf2) as (r3 & Hr3 & Hg3).
  rewrite Hc2 in Hg3.
  set (h3 := write_array r3 (filter (has_status h2 "Done") (contents this h)) h2) in *.
  assert (Hne3 : r3 ≠ tasks this)
    by (pose proof (proj1 (wf_contents _ _ Hwf2)); congruence).
  assert (H12 : r2 ≠ r1).
  { intros ->. unfold h1, write_array in Hr2. simpl in Hr2.
    by rewrite lookup_insert_eq in Hr2. }
  assert (H23 : r3 ≠ r2).
  { intros ->. unfold h2, write_array in Hr3. simpl in Hr3.
    by rewrite lookup_insert_eq in Hr3. }
  assert (H13 : r3 ≠ r1).
  { intros ->. unfold h2 in Hr3. rewrite arrays_write_array_ne in Hr3 by done.
    unfold h1, write_array in Hr3. simpl in Hr3.
    by rewrite lookup_insert_eq in Hr3. }
  exists r1, r2, r3, h3. split.
  { unfold renderColumns, COLUMN_TITLES. cbn [map_loop]. fold this.
    unfold bind, ret. rewrite Hg1. cbn beta iota.
    rewrite Hg2. cbn beta iota. by rewrite Hg3. }
  split.
  { unfold h3, h2. rewrite !elems_write_array_other by done.
    apply elems_write_array. }
  split.
  { unfold h3. rewrite elems_write_array_other by done. apply elems_write_array. }
  split; [apply elems_write_array|].
  split; [by apply wf_write_array|].
  split; [unfold h3; by rewrite contents_write_array_other|done].
Qed.





Lemma onDrop_cases this dt s h :
  wf this h → transfer_ok dt h →
  onDrop this dt s h = Some (false, h) ∨
  ∃ x t, taskObjs h !! x = Some t ∧ status t ≠ s ∧
         onDrop this dt s h = Some (true, write_task x (with_status t s) h).
Proof.
  intros Hwf Hdt.
  assert (∃ v, getDraggedTaskId dt h = Some (v, h)) as [v Hv].
  { destruct dt as [r|]; [|by eexists].
    destruct Hdt as [d Hd]. eexists. by apply getDraggedTaskId_spec. }
  destruct v as [j|]; [|left; by apply onDrop_absent].
  destruct (decide (j = EmptyString)) as [->|Hj]; [left; by apply onDrop_empty|].
  rewrite (onDrop_delegates _ _ _ _ _ Hv Hj).
  destruct (updateTaskStatus_cases this j s h Hwf)
    as [Hu|(x & t & _ & Ht & _ & Hs & Hu)]; [by left|].
  right. by exists x, t.
Qed.

Lemma number_succ_changes k : (k < 2 ^ 53)%Z → number_succ k ≠ k.
Proof. intros Hk. unfold number_succ. rewrite decide_True by done. lia. Qed.

(** X12: the drop handler asks for a refresh only when something moved.
    With a well-formed collection and a usable transfer argument
    [handleColumnDrop] completes and has prevented the event's default;
    either the store and the board state are as before, or one task object
    has received the column's status, which it did not have, and the
    refresh key has been incremented.  Below 2^53 refreshes the refresh key
    changes exactly when the store does, and it stays an integer between 0
    and 2^53. *)
Theorem handleColumnDrop_refreshes_on_change b event s h :
  wf (taskList b) h → transfer_ok (dataTransfer event) h →
  ∃ b' event' h',
    handleColumnDrop b event s h = Some ((b', event'), h') ∧
    defaultPrevented event' = true ∧
    dataTransfer event' = dataTransfer event ∧
    taskList b' = taskList b ∧
    ((h' = h ∧ b' = b) ∨
     (∃ x t, taskObjs h !! x = Some t ∧ status t ≠ s ∧
             h' = write_task x (with_status t s) h ∧
             b' = refreshBoard b)) ∧
    ((refreshKey b < 2 ^ 53)%Z → (refreshKey b' ≠ refreshKey b ↔ h' ≠ h)) ∧
    ((0 ≤ refreshKey b ≤ 2 ^ 53)%Z → (0 ≤ refreshKey b' ≤ 2 ^ 53)%Z).
Proof.
  intros Hwf Hdt.
  destruct (onDrop_cases (taskList b) (dataTransfer event) s h Hwf Hdt)
    as [Hd|(x & t & Ht & Hs & Hd)].
  - exists b, (preventDefault event), h. split.
    { unfold handleColumnDrop. simpl.
      by rewrite (bind_Some _ _ _ _ _ Hd). }
    split; [done|]. split; [done|]. split; [done|]. split; [by left|].
    split; [|done].
    intros _. split; intros Hne; by destruct Hne.
  - exists (refreshBoard b), (preventDefault event),
           (write_task x (with_status t s) h). split.
    { unfold handleColumnDrop. simpl.
      by rewrite (bind_Some _ _ _ _ _ Hd). }
    split; [done|]. split; [done|]. split; [done|].
    split; [right; by exists x, t|].
    split.
    + intros Hk. split; intros _.
      * by apply write_task_changes.
      * by apply number_succ_changes.
    + simpl. unfold number_succ. case_decide; lia.
Qed.

(** X13: a whole gesture.  When the identifier [i] is not the empty string,
    the first task with identifier [i] has a status other than the title
    [s] of a column, and the drag and the drop events carry the same
    transfer object, then [handleTaskDragStart(i, ...)] followed by
    [handleColumnDrop(..., s)] asks for a refresh, and the columns rendered
    next show that task in the column titled [s] and in no other column. *)
Theorem drag_drop_render b dragEvent dropEvent r i s x h :
  wf (taskList b) h →
  dataTransfer dragEvent = Some r → dataTransfer dropEvent = Some r →
  is_Some (transfers h !! r) →
  i ≠ EmptyString →
  first_with_id h i (contents (taskList b) h) x → ¬ has_status h s x →
  ∃ h1 event' h2 columns h3,
    handleTaskDragStart b i dragEvent h = Some (tt, h1) ∧
    handleColumnDrop b dropEvent s h1 = Some ((refreshBoard b, event'), h2) ∧
    renderColumns (refreshBoard b) h2 = Some (columns, h3) ∧
    map fst columns = COLUMN_TITLES ∧
    ∀ title c, (title, c) ∈ columns → (x ∈ elems c h3 ↔ title = s).
Proof.
  intros Hwf Hdrag Hdrop [d Hd] Hi Hfirst Hs.
  set (this := taskList b) in *.
  set (h1 := write_transfer r (<[DRAG_KEY := i]> d) h).
  assert (Hwf1 : wf this h1) by exact Hwf.
  destruct (updateTaskStatus_found this h1 i s x
              (proj1 (wf_contents _ _ Hwf1)) Hfirst) as (t & Ht & Hit & Hu).
  rewrite decide_False in Hu.
  2:{ intros Hst. apply Hs. unfold has_status.
      change (taskObjs h) with (taskObjs h1). by rewrite Ht, <- Hst. }
  set (h2 := write_task x (with_status t s) h1) in *.
  assert (Hdropped : onDrop this (Some r) s h1 = Some (true, h2)).
  { rewrite (onDrop_delegates this (Some r) i s h1); [done| |done].
    apply getDraggedTaskId_after_write. }
  assert (Hwf2 : wf this h2) by by apply wf_write_task.
  assert (Hx : x ∈ contents this h2).
  { destruct Hfirst as (pre & post & Epp & _).
    change (contents this h2) with (contents this h). rewrite Epp.
    apply elem_of_app. right. left. }
  assert (Hst2 : ∀ title, has_status h2 title x ↔ title = s).
  { intros title. unfold has_status, h2, write_task. simpl.
    rewrite lookup_insert_eq. simpl. split; congruence. }
  destruct (renderColumns_spec (refreshBoard b) h2 Hwf2)
    as (r1 & r2 & r3 & h3 & Hr & E1 & E2 & E3 & _).
  exists h1, (preventDefault dropEvent), h2. eexists _, h3.
  split.
  { unfold handleTaskDragStart. rewrite Hdrag. by apply onDrag_spec. }
  split.
  { unfold handleColumnDrop. simpl. rewrite Hdrop.
    by rewrite (bind_Some _ _ _ _ _ Hdropped). }
  split; [exact Hr|]. split; [done|].
  intros title c Hc.
  repeat (apply elem_of_cons in Hc as [[= -> ->]|Hc]);
    [rewrite E1|rewrite E2|rewrite E3|by apply elem_of_nil in Hc];
    rewrite list_elem_of_filter, Hst2; simpl; tauto.
Qed.

Lemma has_status_after_move h x t s c z :
  taskObjs h !! x = Some t → c ≠ status t → c ≠ s →
  has_status (write_task x (with_status t s) h) c z ↔ has_status h c z.
Proof.
  intros Ht Hc1 Hc2. unfold has_status, write_task. simpl.
  destruct (decide (x = z)) as [->|Hne].
  - rewrite lookup_insert_eq, Ht. simpl. split; congruence.
  - by rewrite lookup_insert_ne.
Qed.

(** X14: a move changes two columns only.  When [updateTaskStatus(i, s)]
    moves the first task with identifier [i] from status [A] to [s],
    [getAll()] returns what it returned before, [getByStatus(c)] returns
    what it returned before for every status [c] other than [A] and [s],
    [getByStatus(s)] now holds the moved task besides what it held, and
    [getByStatus(A)] holds what it held except the moved task.  No
    uniqueness of identifiers is needed. *)
Theorem updateTaskStatus_other_columns this i s x t h :
  wf this h →
  first_with_id h i (contents this h) x → taskObjs h !! x = Some t →
  status t ≠ s →
  ∃ h' lS lA lS' lA',
    updateTaskStatus this i s h = Some (true, h') ∧
    snapshot (getAll this) h' = snapshot (getAll this) h ∧
    (∀ c, c ≠ status t → c ≠ s →
          snapshot (getByStatus this c) h' = snapshot (getByStatus this c) h) ∧
    snapshot (getByStatus this s) h = Some lS ∧
    snapshot (getByStatus this s) h' = Some lS' ∧
    snapshot (getByStatus this (status t)) h = Some lA ∧
    snapshot (getByStatus this (status t)) h' = Some lA' ∧
    (∀ z, z ∈ lS' ↔ z ∈ lS ∨ z = x) ∧
    (∀ z, z ∈ lA' ↔ z ∈ lA ∧ z ≠ x).
Proof.
  intros Hwf Hfirst Ht Hs.
  destruct (updateTaskStatus_found this h i s x
              (proj1 (wf_contents _ _ Hwf)) Hfirst) as (t0 & Ht0 & _ & Hu).
  assert (t0 = t) as -> by congruence.
  rewrite decide_False in Hu by done.
  set (h' := write_task x (with_status t s) h) in *.
  assert (Hwf' : wf this h') by by apply wf_write_task.
  assert (Hx : x ∈ contents this h).
  { destruct Hfirst as (pre & post & -> & _). apply elem_of_app. right. left. }
  assert (Hother : ∀ c z, z ≠ x → has_status h' c z ↔ has_status h c z).
  { intros c z Hne. unfold has_status, h'. by rewrite write_task_other. }
  assert (Hxs : ∀ c, has_status h' c x ↔ c = s).
  { intros c. unfold has_status, h', write_task. simpl.
    rewrite lookup_insert_eq. simpl. split; congruence. }
  assert (Hxa : ∀ c, has_status h c x ↔ c = status t).
  { intros c. unfold has_status. rewrite Ht. simpl. split; congruence. }
  eexists h', _, _, _, _. split; [done|].
  split; [by rewrite !snapshot_getAll|].
  split.
  { intros c Hc1 Hc2. rewrite !snapshot_getByStatus by done. f_equal.
    apply list_filter_iff. intros z. by apply has_status_after_move. }
  split; [by apply snapshot_getByStatus|].
  split; [by apply snapshot_getByStatus|].
  split; [by apply snapshot_getByStatus|].
  split; [by apply snapshot_getByStatus|].
  change (contents this h') with (contents this h).
  split; intros z; rewrite !list_elem_of_filter;
    destruct (decide (z = x)) as [->|Hne].
  - rewrite Hxs, Hxa. split; [intros _; by right|intros _; by split].
  - rewrite (Hother s z Hne).
    split; [intros ?; by left|intros [?|?]; [done|congruence]].
  - rewrite Hxs, Hxa.
    split; [intros [? _]; congruence|intros [_ ?]; congruence].
  - rewrite (Hother _ z Hne). split; [intros ?; by split|by intros [? _]].
Qed.

End TaskListClass.

(** ** The statements at concrete stores *)

(** Goes through the elements of a concrete list. *)
Ltac each_elem H tac :=
  repeat (apply elem_of_cons in H as [->|H]; [tac|]);
  by apply elem_of_nil in H.

(** Discharges well-formedness of a concrete store. *)
Ltac solve_wf :=
  eexists; split; [reflexivity|];
  let x := fresh "x" in let Hx := fresh "Hx" in
  intros x Hx; each_elem Hx ltac:(eexists; reflexivity).

(** Discharges [first_with_id] at a concrete store, given the split. *)
Ltac solve_first pre post :=
  exists pre, post; split; [reflexivity|]; split; [reflexivity|];
  let y := fresh "y" in let Hy := fresh "Hy" in
  intros y Hy; each_elem Hy ltac:(eexists; split; [reflexivity|by vm_compute]).

Lemma wf_list0_heap0 : wf list0 heap0.
Proof. solve_wf. Defined.

Lemma updateTaskStatus_outcomes_witness :
  wf list0 heap0 ∧
  updateTaskStatus list0 "t9" "Done" heap0 = Some (false, heap0) ∧
  updateTaskStatus list0 "t3" "Done" heap0 = Some (false, heap0) ∧
  ∃ h', updateTaskStatus list0 "t2" "Done" heap0 = Some (true, h') ∧
        taskObjs h' !! 2 = Some (mkTask "t2" "Done" "Review the design") ∧
        taskObjs h' !! 1 = Some task1 ∧ taskObjs h' !! 3 = Some task3 ∧
        arrays h' = arrays heap0.
Proof.
  pose proof wf_list0_heap0 as W.
  split; [exact W|]. split; [|split].
  - apply (proj1 (updateTaskStatus_outcomes list0 heap0 "t9" "Done" W)).
    intros x Hx. vm_compute in Hx. each_elem Hx ltac:(by vm_compute).
  - apply (proj2 (updateTaskStatus_outcomes list0 heap0 "t3" "Done" W) 3);
      [solve_first [1; 2] (@nil loc)|reflexivity].
  - destruct (proj2 (proj2 (updateTaskStatus_outcomes list0 heap0 "t2" "Done" W) 2
                       ltac:(solve_first [1] [3]))
                ltac:(by vm_compute))
      as (t & h' & Ht & Hu & _ & Hx & _ & Hother & Harr & _).
    assert (t = task2) as -> by (vm_compute in Ht; by injection Ht as <-).
    exists h'. split; [exact Hu|]. split; [exact Hx|].
    split; [by rewrite Hother|]. split; [by rewrite Hother|].
    exact Harr.
Defined.

Lemma snapshot_isolation_witness :
  wf list0 heap0 ∧
  getAll list0 heap0 = Some (1, write_array 1 [1; 2; 3] heap0) ∧
  snapshot (getByStatus list0 "To Do")
    (mutate_array 1 [3; 3] (write_array 1 [1; 2; 3] heap0)) = Some [1; 2].
Proof.
  pose proof wf_list0_heap0 as W.
  assert (G : getAll list0 heap0 = Some (1, write_array 1 [1; 2; 3] heap0))
    by reflexivity.
  split; [exact W|]. split; [exact G|].
  destruct (snapshot_isolation list0 heap0 "Done" 1 _ [3; 3] W (or_introl G))
    as (_ & _ & _ & _ & _ & Hs).
  rewrite (proj2 (Hs "To Do")). reflexivity.
Defined.

Lemma onDrop_without_drag_witness :
  transfers heap0 !! 0 = Some ∅ ∧
  onDrop "text/plain" list0 (Some 0) "Done" heap0 = Some (false, heap0) ∧
  onDrop "text/plain" list0 None "Done" heap0 = Some (false, heap0).
Proof.
  split; [reflexivity|]. split.
  - apply (onDrop_without_drag "text/plain" list0 (Some 0) "Done" heap0).
    right. exists 0, ∅. repeat split; reflexivity.
  - apply (onDrop_without_drag "text/plain" list0 None "Done" heap0).
    by left.
Defined.

(** The collection holds a task whose identifier is the empty string and
    [updateTaskStatus] would move it, yet the drop is refused. *)
Lemma onDrop_empty_identifier_witness :
  transfers heap_empty_id !! 0 = Some ∅ ∧
  fst <$> updateTaskStatus list0 EmptyString "Done" heap_empty_id = Some true ∧
  ∃ h1, onDrag "text/plain" list0 EmptyString (Some 0) heap_empty_id = Some (tt, h1) ∧
        onDrop "text/plain" list0 (Some 0) "Done" h1 = Some (false, h1).
Proof.
  split; [reflexivity|]. split; [reflexivity|].
  exact (proj2 (onDrop_empty_identifier "text/plain" list0 0 ∅ "Done"
                  heap_empty_id eq_refl)).
Defined.

Lemma drag_then_drop_witness :
  wf list0 heap0 ∧ is_Some (transfers heap0 !! 0) ∧ "t2" ≠ EmptyString ∧
  first_with_id heap0 "t2" (contents list0 heap0) 2 ∧
  ¬ has_status heap0 "Done" 2 ∧
  ∃ h1 h2 l,
    onDrag "text/plain" list0 "t2" (Some 0) heap0 = Some (tt, h1) ∧
    onDrop "text/plain" list0 (Some 0) "Done" h1 = Some (true, h2) ∧
    snapshot (getByStatus list0 "Done") h2 = Some l ∧
    2 ∈ l ∧ has_id h2 "t2" 2.
Proof.
  pose proof wf_list0_heap0 as W.
  assert (T : is_Some (transfers heap0 !! 0)) by (eexists; reflexivity).
  assert (N : "t2" ≠ EmptyString) by done.
  assert (F : first_with_id heap0 "t2" (contents list0 heap0) 2)
    by solve_first [1] [3].
  assert (S : ¬ has_status heap0 "Done" 2) by by vm_compute.
  repeat (split; [assumption|]).
  exact (proj2 (drag_then_drop "text/plain" list0 0 "Done" heap0) "t2" 2 W T N F S).
Defined.

(** The round trip as first stated fails in two ways: a task whose
    identifier is the empty string is never moved by a drop, and when two
    tasks share an identifier only the first is looked at.  In both stores
    the collection holds a task with the dragged identifier and a status
    other than "Done", and the drop returns [false] and changes nothing. *)
Lemma drag_then_drop_counterexample :
  (wf list0 heap_empty_id ∧
   1 ∈ contents list0 heap_empty_id ∧
   has_id heap_empty_id EmptyString 1 ∧ ¬ has_status heap_empty_id "Done" 1 ∧
   ∃ h1, onDrag "text/plain" list0 EmptyString (Some 0) heap_empty_id = Some (tt, h1) ∧
         onDrop "text/plain" list0 (Some 0) "Done" h1 = Some (false, h1) ∧
         fst <$> updateTaskStatus list0 EmptyString "Done" h1 = Some true) ∧
  (wf list0 heap_dup ∧
   2 ∈ contents list0 heap_dup ∧
   has_id heap_dup "dup" 2 ∧ ¬ has_status heap_dup "Done" 2 ∧
   ∃ h1, onDrag "text/plain" list0 "dup" (Some 0) heap_dup = Some (tt, h1) ∧
         onDrop "text/plain" list0 (Some 0) "Done" h1 = Some (false, h1)).
Proof.
  split.
  - split; [solve_wf|]. split; [left|]. split; [reflexivity|].
    split; [by vm_compute|].
    eexists. split; [reflexivity|]. split; reflexivity.
  - split; [solve_wf|]. split; [right; left|]. split; [reflexivity|].
    split; [by vm_compute|].
    eexists. split; reflexivity.
Qed.

Lemma updateTaskStatus_move_witness :
  wf list0 heap0 ∧ 1 ∈ contents list0 heap0 ∧
  taskObjs heap0 !! 1 = Some task1 ∧
  (∀ y, y ∈ contents list0 heap0 → has_id heap0 "t1" y → y = 1) ∧
  status task1 ≠ "In Progress" ∧
  ∃ h' lB lA,
    updateTaskStatus list0 "t1" "In Progress" heap0 = Some (true, h') ∧
    snapshot (getByStatus list0 "In Progress") h' = Some lB ∧ 1 ∈ lB ∧
    snapshot (getByStatus list0 "To Do") h' = Some lA ∧
    (∀ y, y ∈ lA → ¬ has_id h' "t1" y) ∧
    contents list0 h' = [1; 2; 3].
Proof.
  pose proof wf_list0_heap0 as W.
  assert (I : 1 ∈ contents list0 heap0) by left.
  assert (U : ∀ y, y ∈ contents list0 heap0 → has_id heap0 "t1" y → y = 1).
  { intros y Hy. vm_compute in Hy. each_elem Hy ltac:(by vm_compute). }
  assert (D : status task1 ≠ "In Progress") by done.
  split; [exact W|]. split; [exact I|]. split; [reflexivity|].
  split; [exact U|]. split; [exact D|].
  destruct (updateTaskStatus_move list0 heap0 "t1" 1 task1 "In Progress"
              W I eq_refl eq_refl U D)
    as (h' & lB & lA & H1 & H2 & H3 & H4 & H5 & _ & _ & H6 & _).
  exists h', lB, lA. do 5 (split; [assumption|]).
  rewrite H6. reflexivity.
Defined.

Lemma filter_partition_witness :
  wf list0 heap0 ∧
  (∀ x, x ∈ contents list0 heap0 →
        ∃ s, s ∈ COLUMN_TITLES ∧ has_status heap0 s x) ∧
  snapshot (getAll list0) heap0 = Some [1; 2; 3] ∧
  (∃ l, snapshot (getByStatus list0 "To Do") heap0 = Some l ∧
        1 ∈ l ∧ 2 ∈ l ∧ ¬ 3 ∈ l) ∧
  (∃ l, snapshot (getByStatus list0 "Done") heap0 = Some l ∧
        3 ∈ l ∧ ¬ 1 ∈ l ∧ ¬ 2 ∈ l) ∧
  ∃ s, s ∈ COLUMN_TITLES ∧
       (∃ l, snapshot (getByStatus list0 s) heap0 = Some l ∧ 1 ∈ l) ∧
       ∀ s' l', snapshot (getByStatus list0 s') heap0 = Some l' → 1 ∈ l' →
                s' = s.
Proof.
  pose proof wf_list0_heap0 as W.
  assert (C : ∀ x, x ∈ contents list0 heap0 →
                   ∃ s, s ∈ COLUMN_TITLES ∧ has_status heap0 s x).
  { intros x Hx. vm_compute in Hx.
    apply elem_of_cons in Hx as [->|Hx];
      [exists "To Do"; split; [left|reflexivity]|].
    apply elem_of_cons in Hx as [->|Hx];
      [exists "To Do"; split; [left|reflexivity]|].
    apply elem_of_cons in Hx as [->|Hx];
      [exists "Done"; split; [right; right; left|reflexivity]|].
    by apply elem_of_nil in Hx. }
  split; [exact W|]. split; [exact C|].
  destruct (filter_partition list0 heap0 W C) as (H1 & H2 & H3 & _).
  split; [exact H1|].
  assert (I1 : 1 ∈ contents list0 heap0) by left.
  assert (I2 : 2 ∈ contents list0 heap0) by (right; left).
  assert (I3 : 3 ∈ contents list0 heap0) by (right; right; left).
  split; [|split].
  - destruct (H2 "To Do") as (l & Hl & Hiff). exists l. split; [exact Hl|].
    split; [apply Hiff; by split|]. split; [apply Hiff; by split|].
    intros Hin. apply Hiff in Hin as [_ Hs]. by vm_compute in Hs.
  - destruct (H2 "Done") as (l & Hl & Hiff). exists l. split; [exact Hl|].
    split; [apply Hiff; by split|].
    split; intros Hin; apply Hiff in Hin as [_ Hs]; by vm_compute in Hs.
  - exact (H3 1 I1).
Defined.

Lemma wf_list0_heap_fresh : wf list0 heap_fresh.
Proof. solve_wf. Defined.

Lemma insertion_order_witness :
  wf list0 heap_fresh ∧
  has_status heap_fresh "To Do" 1 ∧ has_status heap_fresh "To Do" 2 ∧
  has_status heap_fresh "To Do" 3 ∧
  ∃ h3,
    (add list0 1 ;;' add list0 2 ;;' add list0 3) heap_fresh = Some (tt, h3) ∧
    snapshot (getByStatus list0 "To Do") h3 = Some [1; 2; 3].
Proof.
  pose proof wf_list0_heap_fresh as W.
  split; [exact W|]. do 3 (split; [reflexivity|]).
  destruct (insertion_order list0 heap_fresh 1 2 3 "To Do" W eq_refl eq_refl eq_refl)
    as (_ & _ & _ & _ & h3 & l0 & H1 & H2 & H3 & _).
  exists h3. split; [exact H1|].
  rewrite H3. injection H2 as <-. reflexivity.
Defined.

(** Two tasks share the identifier "dup": only the first one is moved. *)
Lemma updateTaskStatus_first_match_witness :
  arrays heap_dup !! tasks list0 = Some ([] ++ 1 :: [2]) ∧
  has_id heap_dup "dup" 2 ∧
  ∃ h',
    updateTaskStatus list0 "dup" "To Do" heap_dup = Some (true, h') ∧
    taskObjs h' !! 1 = Some (mkTask "dup" "To Do" "first") ∧
    taskObjs h' !! 2 = taskObjs heap_dup !! 2.
Proof.
  split; [reflexivity|]. split; [reflexivity|].
  destruct (updateTaskStatus_first_match "text/plain" list0 heap_dup
              [] 1 [2] (mkTask "dup" "Done" "first") "dup" "To Do" eq_refl)
    as (b & h' & H1 & -> & -> & H2 & _).
  - intros y Hy. by apply elem_of_nil in Hy.
  - reflexivity.
  - reflexivity.
  - exists (write_task 1 (with_status (mkTask "dup" "Done" "first") "To Do") heap_dup).
    split; [exact H1|]. split; [reflexivity|]. reflexivity.
Defined.

Lemma operations_total_witness :
  usable list0 (Some 0) 1 heap0 ∧
  completes (onDrop "text/plain" list0 (Some 0) "Done")
            (usable list0 (Some 0) 1) heap0 ∧
  completes (updateTaskStatus list0 "t1" "Done") (usable list0 (Some 0) 1) heap0.
Proof.
  assert (U : usable list0 (Some 0) 1 heap0).
  { split; [exact wf_list0_heap0|]. split; eexists; reflexivity. }
  split; [exact U|].
  destruct (operations_total "text/plain" list0 (Some 0) 1 "t1" "Done" heap0 U)
    as (_ & _ & _ & H4 & _ & H6).
  by split.
Defined.

(** The copy returned by [getAll()] is shallow: its elements are the
    collection's own task objects, so assigning to the status of one of
    them, unlike changing the array, is seen by the collection. *)
Lemma returned_elements_alias :
  ∃ r h1 h2,
    getAll list0 heap0 = Some (r, h1) ∧ elems r h1 = [1; 2; 3] ∧
    set_status 1 "Done" h1 = Some (tt, h2) ∧
    snapshot (getByStatus list0 "Done") h1 = Some [3] ∧
    snapshot (getByStatus list0 "Done") h2 = Some [1; 3].
Proof. eexists _, _, _. repeat split; reflexivity. Qed.

(** ** The further properties at concrete stores *)

Lemma first_t1_heap0 : first_with_id heap0 "t1" (contents list0 heap0) 1.
Proof. solve_first (@nil loc) [2; 3]. Defined.

Lemma first_t2_heap0 : first_with_id heap0 "t2" (contents list0 heap0) 2.
Proof. solve_first [1] [3]. Defined.

Lemma constructor_copies_initial_array_witness :
  arrays heap0 !! 0 = Some [1; 2; 3] ∧
  (∀ x, x ∈ [1; 2; 3] → is_Some (taskObjs heap0 !! x)) ∧
  ∃ this h1,
    constructor (Some 0) heap0 = Some (this, h1) ∧ tasks this ≠ 0 ∧
    snapshot (getAll this) (mutate_array 0 [] h1) = Some [1; 2; 3].
Proof.
  assert (Hl : ∀ x, x ∈ [1; 2; 3] → is_Some (taskObjs heap0 !! x)).
  { intros x Hx. each_elem Hx ltac:(eexists; reflexivity). }
  split; [reflexivity|]. split; [exact Hl|].
  destruct (constructor_copies_initial_array 0 [1; 2; 3] [] heap0 eq_refl Hl)
    as (this & h1 & H1 & H2 & _ & _ & _ & _ & _ & H3 & _).
  by exists this, h1.
Defined.

Lemma add_effect_witness :
  wf list0 heap0 ∧ taskObjs heap0 !! 3 = Some task3 ∧
  ∃ h1, add list0 3 heap0 = Some (tt, h1) ∧
        snapshot (getByStatus list0 "Done") h1 = Some [3; 3] ∧
        snapshot (getAll list0) h1 = Some [1; 2; 3; 3].
Proof.
  pose proof wf_list0_heap0 as W.
  split; [exact W|]. split; [reflexivity|].
  destruct (add_effect list0 3 task3 "Done" heap0 W eq_refl)
    as (h1 & H1 & _ & _ & _ & _ & H2 & H3).
  exists h1. split; [exact H1|]. split; [rewrite H3|rewrite H2]; reflexivity.
Defined.

Lemma earlier_snapshot_unchanged_witness :
  wf list0 heap0 ∧
  getAll list0 heap0 = Some (1, write_array 1 [1; 2; 3] heap0) ∧
  is_Some (taskObjs heap0 !! 1) ∧
  ∃ h2, add list0 1 (write_array 1 [1; 2; 3] heap0) = Some (tt, h2) ∧
        elems 1 h2 = [1; 2; 3] ∧ contents list0 h2 = [1; 2; 3; 1].
Proof.
  pose proof wf_list0_heap0 as W.
  assert (G : getAll list0 heap0 = Some (1, write_array 1 [1; 2; 3] heap0))
    by reflexivity.
  assert (O : is_Some (taskObjs heap0 !! 1)) by (eexists; reflexivity).
  split; [exact W|]. split; [exact G|]. split; [exact O|].
  destruct (earlier_snapshot_unchanged list0 "Done" 1 heap0 _ 1 "t1" "Done"
              W (or_introl G) O) as ((h2 & H1 & H2 & H3) & _).
  exists h2. split; [exact H1|]. split; [rewrite H2|rewrite H3]; reflexivity.
Defined.

Lemma add_then_updateTaskStatus_witness :
  wf list0 heap_fresh ∧ taskObjs heap_fresh !! 1 = Some task1 ∧
  (∀ y, y ∈ contents list0 heap_fresh → ¬ has_id heap_fresh (id task1) y) ∧
  status task1 ≠ "Done" ∧
  ∃ h1 h2 l,
    add list0 1 heap_fresh = Some (tt, h1) ∧
    updateTaskStatus list0 "t1" "Done" h1 = Some (true, h2) ∧
    taskObjs h2 !! 1 = Some (mkTask "t1" "Done" "Write the report") ∧
    taskObjs h2 !! 2 = Some task2 ∧
    snapshot (getAll list0) h2 = Some [1] ∧
    snapshot (getByStatus list0 "Done") h2 = Some l ∧ 1 ∈ l.
Proof.
  pose proof wf_list0_heap_fresh as W.
  assert (N : ∀ y, y ∈ contents list0 heap_fresh →
                   ¬ has_id heap_fresh (id task1) y).
  { intros y Hy. vm_compute in Hy. by apply elem_of_nil in Hy. }
  assert (D : status task1 ≠ "Done") by done.
  split; [exact W|]. split; [reflexivity|]. split; [exact N|].
  split; [exact D|].
  destruct (add_then_updateTaskStatus list0 1 task1 "Done" heap_fresh
              W eq_refl N D) as (h1 & h2 & l & H1 & H2 & H3 & H4 & H5 & H6 & H7).
  exists h1, h2, l. split; [exact H1|]. split; [exact H2|].
  split; [exact H3|]. split; [by rewrite H4|]. by split.
Defined.



Lemma updateTaskStatus_twice_witness :
  wf list0 heap0 ∧
  ∃ b h1, updateTaskStatus list0 "t1" "Done" heap0 = Some (b, h1) ∧
          updateTaskStatus list0 "t1" "Done" h1 = Some (false, h1).
Proof.
  pose proof wf_list0_heap0 as W. split; [exact W|].
  exact (updateTaskStatus_twice list0 "t1" "Done" heap0 W).
Defined.

Lemma updateTaskStatus_there_and_back_witness :
  wf list0 heap0 ∧ first_with_id heap0 "t1" (contents list0 heap0) 1 ∧
  taskObjs heap0 !! 1 = Some task1 ∧ status task1 ≠ "Done" ∧
  ∃ h1, updateTaskStatus list0 "t1" "Done" heap0 = Some (true, h1) ∧
        h1 ≠ heap0 ∧
        updateTaskStatus list0 "t1" "To Do" h1 = Some (true, heap0).
Proof.
  pose proof wf_list0_heap0 as W. pose proof first_t1_heap0 as F.
  assert (D : status task1 ≠ "Done") by done.
  split; [exact W|]. split; [exact F|]. split; [reflexivity|].
  split; [exact D|].
  exact (updateTaskStatus_there_and_back list0 "t1" "Done" 1 task1 heap0
           W F eq_refl D).
Defined.

Lemma updateTaskStatus_frame_witness :
  wf list0 heap0 ∧
  ∃ b h', updateTaskStatus list0 "t1" "Done" heap0 = Some (b, h') ∧
          (b = true ↔ h' ≠ heap0) ∧ arrays h' = arrays heap0.
Proof.
  pose proof wf_list0_heap0 as W. split; [exact W|].
  destruct (updateTaskStatus_frame list0 "t1" "Done" heap0 W)
    as (b & h' & H1 & H2 & _ & H3 & _).
  by exists b, h'.
Defined.

Lemma getAll_twice_witness :
  wf list0 heap0 ∧
  ∃ r1 h1 r2 h2,
    getAll list0 heap0 = Some (r1, h1) ∧ getAll list0 h1 = Some (r2, h2) ∧
    r1 ≠ r2 ∧ elems r1 h2 = [1; 2; 3] ∧ elems r2 h2 = [1; 2; 3].
Proof.
  pose proof wf_list0_heap0 as W. split; [exact W|].
  destruct (getAll_twice list0 heap0 W)
    as (r1 & h1 & r2 & h2 & H1 & H2 & H3 & _ & _ & H4 & H5 & _).
  by exists r1, h1, r2, h2.
Defined.


Lemma handleColumnDrop_refreshes_on_change_witness :
  wf (taskList board0) heap0 ∧ transfer_ok (dataTransfer event0) heap0 ∧
  ∃ b' event' h',
    handleColumnDrop "text/plain" board0 event0 "Done" heap0 =
      Some ((b', event'), h') ∧
    defaultPrevented event' = true ∧
    (refreshKey b' ≠ refreshKey board0 ↔ h' ≠ heap0).
Proof.
  pose proof wf_list0_heap0 as W.
  assert (T : transfer_ok (dataTransfer event0) heap0) by (eexists; reflexivity).
  split; [exact W|]. split; [exact T|].
  destruct (handleColumnDrop_refreshes_on_change "text/plain" board0 event0
              "Done" heap0 W T) as (b' & e' & h' & H1 & H2 & _ & _ & _ & H3 & _).
  exists b', e', h'. split; [exact H1|]. split; [exact H2|].
  apply H3. by vm_compute.
Defined.

Lemma drag_drop_render_witness :
  wf (taskList board0) heap0 ∧
  dataTransfer event0 = Some 0 ∧ is_Some (transfers heap0 !! 0) ∧
  "t2" ≠ EmptyString ∧
  first_with_id heap0 "t2" (contents (taskList board0) heap0) 2 ∧
  ¬ has_status heap0 "Done" 2 ∧
  ∃ h1 event' h2 columns h3,
    handleTaskDragStart "text/plain" board0 "t2" event0 heap0 = Some (tt, h1) ∧
    handleColumnDrop "text/plain" board0 event0 "Done" h1 =
      Some ((refreshBoard board0, event'), h2) ∧
    renderColumns (refreshBoard board0) h2 = Some (columns, h3) ∧
    map fst columns = COLUMN_TITLES ∧
    ∀ title c, (title, c) ∈ columns → (2 ∈ elems c h3 ↔ title = "Done").
Proof.
  pose proof wf_list0_heap0 as W. pose proof first_t2_heap0 as F.
  assert (T : is_Some (transfers heap0 !! 0)) by (eexists; reflexivity).
  assert (N : "t2" ≠ EmptyString) by done.
  assert (S : ¬ has_status heap0 "Done" 2) by by vm_compute.
  split; [exact W|]. split; [reflexivity|]. split; [exact T|].
  split; [exact N|]. split; [exact F|]. split; [exact S|].
  exact (drag_drop_render "text/plain" board0 event0 event0 0 "t2" "Done" 2
           heap0 W eq_refl eq_refl T N F S).
Defined.

Lemma updateTaskStatus_other_columns_witness :
  wf list0 heap0 ∧ first_with_id heap0 "t1" (contents list0 heap0) 1 ∧
  taskObjs heap0 !! 1 = Some task1 ∧ status task1 ≠ "Done" ∧
  ∃ h', updateTaskStatus list0 "t1" "Done" heap0 = Some (true, h') ∧
        snapshot (getByStatus list0 "In Progress") h' = Some [] ∧
        snapshot (getAll list0) h' = Some [1; 2; 3].
Proof.
  pose proof wf_list0_heap0 as W. pose proof first_t1_heap0 as F.
  assert (D : status task1 ≠ "Done") by done.
  split; [exact W|]. split; [exact F|]. split; [reflexivity|].
  split; [exact D|].
  destruct (updateTaskStatus_other_columns list0 "t1" "Done" 1 task1 heap0
              W F eq_refl D)
    as (h' & lS & lA & lS' & lA' & H1 & H2 & H3 & _).
  exists h'. split; [exact H1|].
  split; [rewrite H3 by done|rewrite H2]; reflexivity.
Defined.
